(** * ftxcat: the FTX-1 CAT controller ([ftxcontrol.py])

    A shallow embedding of the transaction engine
    ([FTX1Controller._send_command]) and of the command catalog built on
    it, followed by the properties of the wire protocol.

    Conventions of the embedding.
    - A Python [str] is a [string]; its characters are the 256 values of
      [ascii].  Characters with the top bit set stand for the non-ASCII
      characters of a Python string (every code point above 127 behaves
      the same way under [encode('ascii')]: it raises).
    - A Python [bytes] is a [list byte].
    - A Python [int] is a [Z].
    - The serial port is a record holding the log of [write] calls and
      the list of results the coming [read(1)] calls will give.
    - A catalog function is a computation in a state-and-exception monad
      over the controller. [time.sleep] has no counterpart. *)

From Stdlib Require Import ZArith List String Ascii Bool Lia.
From Stdlib Require Import Strings.Byte.
Import ListNotations.

Local Open Scope string_scope.
Local Open Scope Z_scope.

(* ================================================================== *)
(** * Python values                                                     *)
(* ================================================================== *)

Module Py.

(** The exceptions the controller can raise. *)
Inductive exn : Type :=
| ValueError
| IndexError
| UnicodeEncodeError
| UnicodeDecodeError.

Inductive result (A : Type) : Type :=
| Ok (a : A)
| Raise (e : exn).

Arguments Ok {A} a.
Arguments Raise {A} e.

(** ** Characters *)

(** 7-bit characters: the top bit is clear. *)
Definition is_ascii (c : ascii) : bool :=
  match c with
  | Ascii _ _ _ _ _ _ _ b7 => negb b7
  end.

Definition is_ascii_byte (b : byte) : bool := is_ascii (ascii_of_byte b).

Definition is_digit (c : ascii) : bool :=
  let n := N_of_ascii c in ((48 <=? n) && (n <=? 57))%N.

Definition digit_val (c : ascii) : Z := Z.of_N (N_of_ascii c) - 48.

(** The characters that [int()] strips around the number: tab, line
    feed, vertical tab, form feed, carriage return and space, and of
    the characters above 127 the two spaces NEL and NBSP. *)
Definition is_space (c : ascii) : bool :=
  let n := N_of_ascii c in
  (((9 <=? n) && (n <=? 13)) || (n =? 32) || (n =? 133) || (n =? 160))%N.

Definition digit_char (d : Z) : ascii := ascii_of_N (48 + Z.to_N d).

(** ** Strings *)

Fixpoint str_all (p : ascii -> bool) (s : string) : bool :=
  match s with
  | EmptyString => true
  | String c r => p c && str_all p r
  end.

(** [s[n:]] for a literal [n >= 0]. *)
Fixpoint slice_from (n : nat) (s : string) : string :=
  match n, s with
  | O, _ => s
  | S _, EmptyString => EmptyString
  | S k, String _ r => slice_from k r
  end.

Fixpoint str_take (n : nat) (s : string) : string :=
  match n, s with
  | O, _ => EmptyString
  | S _, EmptyString => EmptyString
  | S k, String c r => String c (str_take k r)
  end.

(** [s[a:b]] for literals [0 <= a <= b]: slices clip, they never raise. *)
Definition slice (a b : nat) (s : string) : string :=
  str_take (b - a) (slice_from a s).

(** [s[i]] for a literal [i >= 0]: raises [IndexError] out of range. *)
Definition index (i : nat) (s : string) : result string :=
  match String.get i s with
  | Some c => Ok (String c EmptyString)
  | None => Raise IndexError
  end.

(** ** [str.encode('ascii')] and [bytes.decode('ascii')] *)

Definition encode_ascii (s : string) : result (list byte) :=
  if str_all is_ascii s then Ok (list_byte_of_string s)
  else Raise UnicodeEncodeError.

Definition decode_ascii (bs : list byte) : result string :=
  if forallb is_ascii_byte bs then Ok (string_of_list_byte bs)
  else Raise UnicodeDecodeError.

(** ** Decimal output: [str(n)] and the format [0{width}d]

    Integers are unbounded here; the limit CPython puts on the number of
    digits of a conversion (4300 by default) is far above any number of
    the protocol and is left out. *)

Fixpoint dec_digits (fuel : nat) (n : Z) : string :=
  match fuel with
  | O => EmptyString
  | S k =>
      if n <? 10 then String (digit_char n) EmptyString
      else dec_digits k (n / 10) ++ String (digit_char (n mod 10)) EmptyString
  end.

(** The decimal digits of [n >= 0], most significant first. Every
    division by ten at least halves the number, so one round per bit is
    enough. *)
Definition digits_of (n : Z) : string :=
  dec_digits (S (Z.to_nat (Z.log2 n))) n.

Fixpoint zeros (k : nat) : string :=
  match k with
  | O => EmptyString
  | S k' => String "0" (zeros k')
  end.

Definition sign_of (x : Z) : string := if x <? 0 then "-" else "".

(** [f"{x}"] for an int. *)
Definition str_int (x : Z) : string := sign_of x ++ digits_of (Z.abs x).

(** [f"{x:0{width}d}"] for an int: the sign comes first, the zeros fill
    up to [width] characters in all, and a longer number is not cut. *)
Definition format_0d (width : nat) (x : Z) : string :=
  let digits := digits_of (Z.abs x) in
  sign_of x ++ zeros (width - String.length (sign_of x) - String.length digits)
    ++ digits.

(** ** Decimal input: [int(s)] *)

Fixpoint lstrip (s : string) : string :=
  match s with
  | EmptyString => EmptyString
  | String c r => if is_space c then lstrip r else s
  end.

Fixpoint rstrip (s : string) : string :=
  match s with
  | EmptyString => EmptyString
  | String c r =>
      match rstrip r with
      | EmptyString => if is_space c then EmptyString else String c EmptyString
      | r' => String c r'
      end
  end.

(** Digits, with single underscores allowed between two digits.
    [after_digit] tells whether the previous character was a digit. *)
Fixpoint int_body (acc : Z) (after_digit : bool) (s : string) : option Z :=
  match s with
  | EmptyString => if after_digit then Some acc else None
  | String c r =>
      if is_digit c then int_body (10 * acc + digit_val c) true r
      else if Ascii.eqb c "_" then
             if after_digit then int_body acc false r else None
      else None
  end.

Definition int_opt (s : string) : option Z :=
  match rstrip (lstrip s) with
  | String "+" r => int_body 0 false r
  | String "-" r => option_map Z.opp (int_body 0 false r)
  | r => int_body 0 false r
  end.

(** [int(s)] in base ten: raises [ValueError] on anything but an
    optionally signed, optionally padded run of digits. *)
Definition int (s : string) : result Z :=
  match int_opt s with
  | Some z => Ok z
  | None => Raise ValueError
  end.

End Py.

Import Py.

(* ================================================================== *)
(** * The serial port and the controller                                *)
(* ================================================================== *)

(** What the code uses of [serial.Serial]: [write] appends one entry to
    [written]; [read(1)] consumes one entry of [pending], where [None]
    is a read that timed out and gave [b''].  Once [pending] is used up
    every read times out. *)
Record Serial : Type := mkSerial {
  written : list (list byte);
  pending : list (option byte)
}.

Record FTX1Controller : Type := mkFTX { ser : Serial }.

(** Computations over the controller that may raise. A raised exception
    keeps the effects that came before it. *)
Definition M (A : Type) : Type := FTX1Controller -> result A * FTX1Controller.

Definition ret {A} (a : A) : M A := fun ftx => (Ok a, ftx).

Definition raise {A} (e : exn) : M A := fun ftx => (Raise e, ftx).

Definition bind {A B} (m : M A) (k : A -> M B) : M B :=
  fun ftx =>
    match m ftx with
    | (Ok a, ftx') => k a ftx'
    | (Raise e, ftx') => (Raise e, ftx')
    end.

(** A pure step that may raise. *)
Definition lift {A} (r : result A) : M A := fun ftx => (r, ftx).

Declare Scope py_scope.
Delimit Scope py_scope with py.
Notation "x <- m ;; k" := (bind m (fun x => k))
  (at level 61, m at next level, right associativity) : py_scope.
Notation "m ;; k" := (bind m (fun _ => k))
  (at level 61, right associativity) : py_scope.
Local Open Scope py_scope.

Definition semicolon : byte := byte_of_ascii ";".

(** [self.ser.write(data)] *)
Definition ser_write (data : list byte) : M unit :=
  fun ftx =>
    (Ok tt, mkFTX (mkSerial (written (ser ftx) ++ [data]) (pending (ser ftx)))).

(** The loop of [_send_command]:
    [while True: char = read(1); if not char or char == b';': break;
    response += char].  Returns the response and what is left pending. *)
Fixpoint read_loop (rx : list (option byte)) (response : list byte)
  : list byte * list (option byte) :=
  match rx with
  | [] => (response, [])
  | None :: rest => (response, rest)
  | Some char :: rest =>
      if Byte.eqb char semicolon then (response, rest)
      else read_loop rest (response ++ [char])
  end.

Definition ser_read_reply : M (list byte) :=
  fun ftx =>
    let (response, rest) := read_loop (pending (ser ftx)) [] in
    (Ok response, mkFTX (mkSerial (written (ser ftx)) rest)).

(** [FTX1Controller._send_command] *)
Definition _send_command (command : string) : M string :=
  let cmd := command ++ ";" in
  data <- lift (encode_ascii cmd) ;;
  ser_write data ;;
  response <- ser_read_reply ;;
  lift (decode_ascii response).

(* ================================================================== *)
(** * The command catalog                                               *)
(* ================================================================== *)

(** [class OperatingMode(Enum)] *)
Inductive OperatingMode : Type :=
| LSB | USB | CW_U | FM | AM | RTTY_L | CW_L | DATA_L | RTTY_U
| DATA_FM | FM_N | DATA_U | AM_N | PSK | DATA_FM_N | C4FM_DN | C4FM_VW.

(** [mode.value] *)
Definition OperatingMode_value (mode : OperatingMode) : string :=
  match mode with
  | LSB => "1" | USB => "2" | CW_U => "3" | FM => "4" | AM => "5"
  | RTTY_L => "6" | CW_L => "7" | DATA_L => "8" | RTTY_U => "9"
  | DATA_FM => "A" | FM_N => "B" | DATA_U => "C" | AM_N => "D"
  | PSK => "E" | DATA_FM_N => "F" | C4FM_DN => "H" | C4FM_VW => "I"
  end.

Definition all_modes : list OperatingMode :=
  [LSB; USB; CW_U; FM; AM; RTTY_L; CW_L; DATA_L; RTTY_U;
   DATA_FM; FM_N; DATA_U; AM_N; PSK; DATA_FM_N; C4FM_DN; C4FM_VW].

(** [class AGCMode(Enum)] *)
Inductive AGCMode : Type :=
| AGC_OFF | AGC_FAST | AGC_MID | AGC_SLOW | AGC_AUTO.

Definition AGCMode_value (mode : AGCMode) : string :=
  match mode with
  | AGC_OFF => "0" | AGC_FAST => "1" | AGC_MID => "2"
  | AGC_SLOW => "3" | AGC_AUTO => "4"
  end.

(** ** Frequency control *)

Definition set_frequency_main (freq_hz : Z) : M unit :=
  let freq_str := format_0d 9 freq_hz in
  _send_command ("FA" ++ freq_str) ;;
  ret tt.

Definition get_frequency_main : M Z :=
  response <- _send_command "FA" ;;
  lift (int (slice_from 2 response)).

Definition set_frequency_sub (freq_hz : Z) : M unit :=
  let freq_str := format_0d 9 freq_hz in
  _send_command ("FB" ++ freq_str) ;;
  ret tt.

Definition get_frequency_sub : M Z :=
  response <- _send_command "FB" ;;
  lift (int (slice_from 2 response)).

(** ** Mode control *)

Definition set_mode (mode : OperatingMode) (side : Z) : M unit :=
  _send_command ("MD" ++ str_int side ++ OperatingMode_value mode) ;;
  ret tt.

Definition get_mode (side : Z) : M string :=
  response <- _send_command ("MD" ++ str_int side) ;;
  ret (slice_from 3 response).

(** ** PTT control *)

Definition set_ptt (state : bool) : M unit :=
  let cmd := if state then "TX1" else "TX0" in
  _send_command cmd ;;
  ret tt.

Definition get_ptt_status : M bool :=
  response <- _send_command "TX" ;;
  c <- lift (index 2 response) ;;
  ret (String.eqb c "2").

(** ** Power control *)

(** [power_watts] is formatted with [03d], which Python accepts for an
    int only, as in the examples of the docstring. *)
Definition set_rf_power (power_watts unit_ : Z) : M unit :=
  _send_command ("PC" ++ str_int unit_ ++ format_0d 3 power_watts) ;;
  ret tt.

Section PowerQuery.

(** [float(s)]: the values of Python floats and the conversion from
    text are kept abstract. *)
Variable pyfloat : Type.
Variable float : string -> result pyfloat.

Definition get_rf_power : M (Z * pyfloat) :=
  response <- _send_command "PC" ;;
  c <- lift (index 2 response) ;;
  unit_ <- lift (int c) ;;
  power <- lift (float (slice 3 6 response)) ;;
  ret (unit_, power).

End PowerQuery.

(** ** AGC control *)

Definition set_agc (mode : AGCMode) (side : Z) : M unit :=
  _send_command ("GT" ++ str_int side ++ AGCMode_value mode) ;;
  ret tt.

Definition get_agc (side : Z) : M string :=
  response <- _send_command ("GT" ++ str_int side) ;;
  ret (slice_from 3 response).

(** ** Audio control *)

Definition set_af_gain (level side : Z) : M unit :=
  _send_command ("AG" ++ str_int side ++ format_0d 3 level) ;;
  ret tt.

Definition get_af_gain (side : Z) : M Z :=
  response <- _send_command ("AG" ++ str_int side) ;;
  lift (int (slice 3 6 response)).

Definition set_squelch (level side : Z) : M unit :=
  _send_command ("SQ" ++ str_int side ++ format_0d 3 level) ;;
  ret tt.

Definition get_squelch (side : Z) : M Z :=
  response <- _send_command ("SQ" ++ str_int side) ;;
  lift (int (slice 3 6 response)).

(** ** Meters *)

Definition get_s_meter (side : Z) : M Z :=
  response <- _send_command ("SM" ++ str_int side) ;;
  lift (int (slice 3 6 response)).

Definition get_meter_reading (meter_type : Z) : M (Z * Z) :=
  response <- _send_command ("RM" ++ str_int meter_type) ;;
  primary <- lift (int (slice 3 6 response)) ;;
  secondary <- lift (int (slice 6 9 response)) ;;
  ret (primary, secondary).

(** ** VFO and memory *)

Definition toggle_vfo_memory (side : Z) : M unit :=
  _send_command ("VM" ++ str_int side) ;;
  ret tt.

Definition set_memory_channel (channel side : Z) : M unit :=
  if negb ((1 <=? channel) && (channel <=? 99)) then raise ValueError
  else
    _send_command ("MC" ++ str_int side ++ format_0d 5 channel) ;;
    ret tt.

Definition memory_to_vfo : M unit :=
  _send_command "MA" ;;
  ret tt.

Definition memory_to_vfo_sub : M unit :=
  _send_command "MB" ;;
  ret tt.

(** ** Split *)

Definition set_split (state : bool) : M unit :=
  let cmd := if state then "ST1" else "ST0" in
  _send_command cmd ;;
  ret tt.

Definition get_split : M bool :=
  response <- _send_command "ST" ;;
  c <- lift (index 2 response) ;;
  ret (String.eqb c "1").

(** ** Clarifier (RIT/XIT) *)

Definition set_clarifier (rx_on tx_on : bool) (offset_hz side : Z) : M unit :=
  let rx := if rx_on then "1" else "0" in
  let tx := if tx_on then "1" else "0" in
  let sign := if offset_hz >=? 0 then "+" else "-" in
  let freq := Z.abs offset_hz in
  _send_command ("CF" ++ str_int side ++ "00" ++ rx ++ tx ++ "000") ;;
  _send_command ("CF" ++ str_int side ++ "01" ++ sign ++ format_0d 4 freq) ;;
  ret tt.

(** ** Bands and scanning *)

Definition band_up (side : Z) : M unit :=
  _send_command ("BU" ++ str_int side) ;;
  ret tt.

Definition band_down (side : Z) : M unit :=
  _send_command ("BD" ++ str_int side) ;;
  ret tt.

Definition select_band (band side : Z) : M unit :=
  _send_command ("BS" ++ str_int side ++ format_0d 2 band) ;;
  ret tt.

Definition set_scan (mode side : Z) : M unit :=
  _send_command ("SC" ++ str_int side ++ str_int mode) ;;
  ret tt.

(** ** CW *)

Definition set_cw_keyer (state : bool) : M unit :=
  let cmd := if state then "KR1" else "KR0" in
  _send_command cmd ;;
  ret tt.

Definition set_cw_speed (wpm : Z) : M unit :=
  _send_command ("KS" ++ format_0d 3 wpm) ;;
  ret tt.

Definition get_cw_speed : M Z :=
  response <- _send_command "KS" ;;
  lift (int (slice 2 5 response)).

Definition set_cw_pitch (pitch_hz : Z) : M unit :=
  let value := (pitch_hz - 300) / 10 in
  _send_command ("KP" ++ format_0d 2 value) ;;
  ret tt.

Definition set_breakin (state : bool) : M unit :=
  let cmd := if state then "BI1" else "BI0" in
  _send_command cmd ;;
  ret tt.

(** ** Filters *)

Definition set_if_shift (offset_hz side : Z) : M unit :=
  let sign := if offset_hz >=? 0 then "+" else "-" in
  let value := Z.abs offset_hz in
  _send_command ("IS" ++ str_int side ++ "0" ++ sign ++ format_0d 4 value) ;;
  ret tt.

Definition set_width (width_code side : Z) : M unit :=
  _send_command ("SH" ++ str_int side ++ "0" ++ format_0d 2 width_code) ;;
  ret tt.

Definition set_narrow (state : bool) (side : Z) : M unit :=
  let cmd := if state then "NA" ++ str_int side ++ "1"
             else "NA" ++ str_int side ++ "0" in
  _send_command cmd ;;
  ret tt.

(** ** Noise reduction *)

Definition set_noise_blanker (level side : Z) : M unit :=
  _send_command ("NL" ++ str_int side ++ format_0d 3 level) ;;
  ret tt.

Definition set_dnr (level side : Z) : M unit :=
  _send_command ("RL" ++ str_int side ++ format_0d 2 level) ;;
  ret tt.

Definition set_dnf (state : bool) (side : Z) : M unit :=
  let cmd := if state then "BC" ++ str_int side ++ "1"
             else "BC" ++ str_int side ++ "0" in
  _send_command cmd ;;
  ret tt.

(** ** Information retrieval *)

(** The dictionary that [get_radio_info] returns. *)
Record RadioInfo : Type := mkRadioInfo {
  memory_channel : string;
  frequency : Z;
  clar_direction : string;
  clar_offset : Z;
  rx_clar : bool;
  tx_clar : bool;
  mode : string;
  vfo_memory : string;
  tone_mode : string;
  repeater_shift : string
}.

(** The values of the dictionary are evaluated in the order written. *)
Definition get_radio_info : M RadioInfo :=
  response <- _send_command "IF" ;;
  let v_memory_channel := slice 2 7 response in
  v_frequency <- lift (int (slice 7 16 response)) ;;
  v_clar_direction <- lift (index 16 response) ;;
  v_clar_offset <- lift (int (slice 17 21 response)) ;;
  c21 <- lift (index 21 response) ;;
  c22 <- lift (index 22 response) ;;
  v_mode <- lift (index 23 response) ;;
  v_vfo_memory <- lift (index 24 response) ;;
  v_tone_mode <- lift (index 25 response) ;;
  v_repeater_shift <- lift (index 28 response) ;;
  ret (mkRadioInfo v_memory_channel v_frequency v_clar_direction
         v_clar_offset (String.eqb c21 "1") (String.eqb c22 "1")
         v_mode v_vfo_memory v_tone_mode v_repeater_shift).

Definition get_id : M string :=
  response <- _send_command "ID" ;;
  ret (slice_from 2 response).

Definition get_firmware_version (cpu : Z) : M string :=
  response <- _send_command ("VE" ++ str_int cpu) ;;
  ret (slice_from 3 response).

(** ** Utility toggles *)

Definition enable_auto_information (state : bool) : M unit :=
  let cmd := if state then "AI1" else "AI0" in
  _send_command cmd ;;
  ret tt.

Definition lock_controls (state : bool) : M unit :=
  let cmd := if state then "LK1" else "LK0" in
  _send_command cmd ;;
  ret tt.

Definition swap_vfo : M unit :=
  _send_command "SV" ;;
  ret tt.

(* ================================================================== *)
(** * The catalog as one type of calls                                  *)
(* ================================================================== *)

(** One constructor per public function of the catalog, with its
    arguments. *)
Inductive Operation : Type :=
| Call_set_frequency_main (freq_hz : Z)
| Call_get_frequency_main
| Call_set_frequency_sub (freq_hz : Z)
| Call_get_frequency_sub
| Call_set_mode (mode : OperatingMode) (side : Z)
| Call_get_mode (side : Z)
| Call_set_ptt (state : bool)
| Call_get_ptt_status
| Call_set_rf_power (power_watts unit_ : Z)
| Call_get_rf_power
| Call_set_agc (mode : AGCMode) (side : Z)
| Call_get_agc (side : Z)
| Call_set_af_gain (level side : Z)
| Call_get_af_gain (side : Z)
| Call_set_squelch (level side : Z)
| Call_get_squelch (side : Z)
| Call_get_s_meter (side : Z)
| Call_get_meter_reading (meter_type : Z)
| Call_toggle_vfo_memory (side : Z)
| Call_set_memory_channel (channel side : Z)
| Call_memory_to_vfo
| Call_memory_to_vfo_sub
| Call_set_split (state : bool)
| Call_get_split
| Call_set_clarifier (rx_on tx_on : bool) (offset_hz side : Z)
| Call_band_up (side : Z)
| Call_band_down (side : Z)
| Call_select_band (band side : Z)
| Call_set_scan (mode side : Z)
| Call_set_cw_keyer (state : bool)
| Call_set_cw_speed (wpm : Z)
| Call_get_cw_speed
| Call_set_cw_pitch (pitch_hz : Z)
| Call_set_breakin (state : bool)
| Call_set_if_shift (offset_hz side : Z)
| Call_set_width (width_code side : Z)
| Call_set_narrow (state : bool) (side : Z)
| Call_set_noise_blanker (level side : Z)
| Call_set_dnr (level side : Z)
| Call_set_dnf (state : bool) (side : Z)
| Call_get_radio_info
| Call_get_id
| Call_get_firmware_version (cpu : Z)
| Call_enable_auto_information (state : bool)
| Call_lock_controls (state : bool)
| Call_swap_vfo.

(** Runs a computation for its effect on the controller. *)
Definition void {A} (m : M A) : M unit := m ;; ret tt.

Definition run {pyfloat : Type} (float : string -> result pyfloat)
    (op : Operation) : M unit :=
  match op with
  | Call_set_frequency_main f => set_frequency_main f
  | Call_get_frequency_main => void get_frequency_main
  | Call_set_frequency_sub f => set_frequency_sub f
  | Call_get_frequency_sub => void get_frequency_sub
  | Call_set_mode m s => set_mode m s
  | Call_get_mode s => void (get_mode s)
  | Call_set_ptt b => set_ptt b
  | Call_get_ptt_status => void get_ptt_status
  | Call_set_rf_power p u => set_rf_power p u
  | Call_get_rf_power => void (get_rf_power pyfloat float)
  | Call_set_agc m s => set_agc m s
  | Call_get_agc s => void (get_agc s)
  | Call_set_af_gain l s => set_af_gain l s
  | Call_get_af_gain s => void (get_af_gain s)
  | Call_set_squelch l s => set_squelch l s
  | Call_get_squelch s => void (get_squelch s)
  | Call_get_s_meter s => void (get_s_meter s)
  | Call_get_meter_reading t => void (get_meter_reading t)
  | Call_toggle_vfo_memory s => toggle_vfo_memory s
  | Call_set_memory_channel c s => set_memory_channel c s
  | Call_memory_to_vfo => memory_to_vfo
  | Call_memory_to_vfo_sub => memory_to_vfo_sub
  | Call_set_split b => set_split b
  | Call_get_split => void get_split
  | Call_set_clarifier r t o s => set_clarifier r t o s
  | Call_band_up s => band_up s
  | Call_band_down s => band_down s
  | Call_select_band b s => select_band b s
  | Call_set_scan m s => set_scan m s
  | Call_set_cw_keyer b => set_cw_keyer b
  | Call_set_cw_speed w => set_cw_speed w
  | Call_get_cw_speed => void get_cw_speed
  | Call_set_cw_pitch p => set_cw_pitch p
  | Call_set_breakin b => set_breakin b
  | Call_set_if_shift o s => set_if_shift o s
  | Call_set_width w s => set_width w s
  | Call_set_narrow b s => set_narrow b s
  | Call_set_noise_blanker l s => set_noise_blanker l s
  | Call_set_dnr l s => set_dnr l s
  | Call_set_dnf b s => set_dnf b s
  | Call_get_radio_info => void get_radio_info
  | Call_get_id => void get_id
  | Call_get_firmware_version c => void (get_firmware_version c)
  | Call_enable_auto_information b => enable_auto_information b
  | Call_lock_controls b => lock_controls b
  | Call_swap_vfo => swap_vfo
  end.

Definition between (lo hi x : Z) : bool := (lo <=? x) && (x <=? hi).

Definition is_side (side : Z) : bool := between 0 1 side.

(** The preconditions the docstrings give: [side] is 0 or 1 and every
    number lies in the range written next to it. *)
Definition documented (op : Operation) : bool :=
  match op with
  | Call_set_frequency_main f | Call_set_frequency_sub f =>
      between 30000 470000000 f
  | Call_set_mode _ s | Call_get_mode s | Call_set_agc _ s | Call_get_agc s
  | Call_get_af_gain s | Call_get_squelch s | Call_get_s_meter s
  | Call_toggle_vfo_memory s | Call_band_up s | Call_band_down s
  | Call_set_narrow _ s | Call_set_dnf _ s => is_side s
  | Call_set_rf_power p u =>
      ((u =? 1) && between 1 10 p) || ((u =? 2) && between 5 100 p)
  | Call_set_af_gain l s | Call_set_squelch l s => between 0 255 l && is_side s
  | Call_get_meter_reading t => between 1 8 t
  | Call_set_memory_channel c s => between 1 99 c && is_side s
  | Call_set_clarifier _ _ o s => between (-9995) 9995 o && is_side s
  | Call_select_band b s => between 0 14 b && is_side s
  | Call_set_scan m s => between 0 2 m && is_side s
  | Call_set_cw_speed w => between 4 60 w
  | Call_set_cw_pitch p => between 300 1050 p && (p mod 10 =? 0)
  | Call_set_if_shift o s =>
      between (-1200) 1200 o && (o mod 20 =? 0) && is_side s
  | Call_set_width w s => between 0 23 w && is_side s
  | Call_set_noise_blanker l s | Call_set_dnr l s =>
      between 0 10 l && is_side s
  | Call_get_firmware_version c => between 0 5 c
  | _ => true
  end.

(* ================================================================== *)
(** * Notions of the wire protocol                                      *)
(* ================================================================== *)

Definition not_semicolon (c : ascii) : bool := negb (Ascii.eqb c ";").

(** A character that may stand in a command body: 7-bit and not the
    terminator. *)
Definition wire_char (c : ascii) : bool := is_ascii c && not_semicolon c.

(** The Command Frame invariant on the bytes given to [write]: the last
    byte is the terminator and no byte before it is. *)
Definition frame_ok (frame : list byte) : Prop :=
  exists body : list byte,
    frame = (body ++ [semicolon])%list /\ ~ In semicolon body.

(** The frame of a command body. *)
Definition frame_of (body : string) : list byte :=
  (list_byte_of_string body ++ [semicolon])%list.

(** The bytes that the reads deliver before the first terminator or the
    first read that times out. *)
Fixpoint reply_bytes (rx : list (option byte)) : list byte :=
  match rx with
  | Some b :: rest => if Byte.eqb b semicolon then [] else b :: reply_bytes rest
  | _ => []
  end.

(** What is still pending after that first terminator or timeout. *)
Fixpoint reply_rest (rx : list (option byte)) : list (option byte) :=
  match rx with
  | Some b :: rest => if Byte.eqb b semicolon then rest else reply_rest rest
  | None :: rest => rest
  | [] => []
  end.

(** A transport on which the bytes of [reply] arrive next, terminated. *)
Definition replies (reply : string) (ftx : FTX1Controller) : Prop :=
  exists rest,
    pending (ser ftx)
    = (map Some (list_byte_of_string (reply ++ ";")) ++ rest)%list.

(** What the next transaction returns on this transport, whatever
    7-bit command is sent. *)
Definition next_reply (ftx : FTX1Controller) : result string :=
  decode_ascii (reply_bytes (pending (ser ftx))).

(** The signed offset that the two clarifier fields of the info
    dictionary stand for: the magnitude, negated under direction [-]. *)
Definition clar_signed (info : RadioInfo) : Z :=
  if String.eqb (clar_direction info) "-" then - clar_offset info
  else clar_offset info.

(** The frames a computation adds to the log of writes. *)
Definition sends {A} (m : M A) (ftx : FTX1Controller)
    (frames : list (list byte)) : Prop :=
  written (ser (snd (m ftx))) = (written (ser ftx) ++ frames)%list.

(** A computation all of whose writes are well-formed frames. *)
Definition writes_frames {A} (m : M A) : Prop :=
  forall ftx, exists frames, sends m ftx frames /\ Forall frame_ok frames.





(** Two transactions in a row, both replies kept. *)
Definition two_commands (first second : string) : M (string * string) :=
  r1 <- _send_command first ;;
  r2 <- _send_command second ;;
  ret (r1, r2).


(* ================================================================== *)
(** * Characters and strings                                            *)
(* ================================================================== *)

Ltac each_ascii c :=
  destruct c as [[] [] [] [] [] [] [] []]; vm_compute; try reflexivity;
  try discriminate; try tauto.

Lemma is_digit_wire_char c : is_digit c = true -> wire_char c = true.
Proof. each_ascii c. Qed.

Lemma is_digit_not_space c : is_digit c = true -> is_space c = false.
Proof. each_ascii c. Qed.

Lemma digit_cases d :
  0 <= d < 10 ->
  d = 0 \/ d = 1 \/ d = 2 \/ d = 3 \/ d = 4 \/ d = 5 \/ d = 6 \/ d = 7
  \/ d = 8 \/ d = 9.
Proof. lia. Qed.

Lemma digit_char_is_digit d : 0 <= d < 10 -> is_digit (digit_char d) = true.
Proof.
  intros H. destruct (digit_cases d H) as [E|[E|[E|[E|[E|[E|[E|[E|[E|E]]]]]]]]];
    subst d; reflexivity.
Qed.

Lemma digit_val_digit_char d : 0 <= d < 10 -> digit_val (digit_char d) = d.
Proof.
  intros H. destruct (digit_cases d H) as [E|[E|[E|[E|[E|[E|[E|[E|[E|E]]]]]]]]];
    subst d; reflexivity.
Qed.

Lemma str_length_app (a b : string) :
  String.length (a ++ b) = (String.length a + String.length b)%nat.
Proof. induction a; simpl; congruence. Qed.

Lemma str_all_app p (a b : string) :
  str_all p (a ++ b) = str_all p a && str_all p b.
Proof.
  induction a; simpl; [reflexivity|]. rewrite IHa. apply andb_assoc.
Qed.

Lemma str_all_impl (p q : ascii -> bool) (s : string) :
  (forall c, p c = true -> q c = true) ->
  str_all p s = true -> str_all q s = true.
Proof.
  intros Hpq. induction s; simpl; [reflexivity|].
  rewrite !andb_true_iff. intros [H1 H2]. auto.
Qed.

Lemma wire_char_ascii s : str_all wire_char s = true -> str_all is_ascii s = true.
Proof.
  apply str_all_impl. unfold wire_char. intros c H.
  apply andb_true_iff in H. tauto.
Qed.

Lemma wire_char_not_semicolon s :
  str_all wire_char s = true -> str_all not_semicolon s = true.
Proof.
  apply str_all_impl. unfold wire_char. intros c H.
  apply andb_true_iff in H. tauto.
Qed.

Lemma list_byte_of_string_app (a b : string) :
  list_byte_of_string (a ++ b)
  = (list_byte_of_string a ++ list_byte_of_string b)%list.
Proof.
  unfold list_byte_of_string. induction a; simpl; [reflexivity|].
  now rewrite IHa.
Qed.

Lemma semicolon_byte_eqb c :
  Byte.eqb (byte_of_ascii c) semicolon = Ascii.eqb c ";".
Proof. each_ascii c. Qed.

Lemma semicolon_eqb_ascii_of_byte b :
  Ascii.eqb (ascii_of_byte b) ";" = Byte.eqb b semicolon.
Proof.
  rewrite <- semicolon_byte_eqb. now rewrite byte_of_ascii_of_byte.
Qed.

Lemma forallb_ascii_bytes (s : string) :
  forallb is_ascii_byte (list_byte_of_string s) = str_all is_ascii s.
Proof.
  unfold list_byte_of_string, is_ascii_byte. induction s; simpl; [reflexivity|].
  now rewrite ascii_of_byte_of_ascii, IHs.
Qed.

Lemma str_all_string_of_bytes p (bs : list byte) :
  str_all p (string_of_list_byte bs) = forallb (fun b => p (ascii_of_byte b)) bs.
Proof.
  unfold string_of_list_byte. induction bs; simpl; [reflexivity|].
  now rewrite IHbs.
Qed.

Lemma not_in_semicolon_bytes (s : string) :
  str_all not_semicolon s = true -> ~ In semicolon (list_byte_of_string s).
Proof.
  unfold list_byte_of_string. induction s as [|c r IH]; simpl; [tauto|].
  rewrite andb_true_iff. intros [Hc Hr] [E|E]; [|now apply IH].
  unfold not_semicolon in Hc. rewrite <- semicolon_byte_eqb, E in Hc.
  discriminate.
Qed.

Lemma encode_ascii_ok (s : string) :
  str_all is_ascii s = true -> encode_ascii s = Ok (list_byte_of_string s).
Proof. unfold encode_ascii. now intros ->. Qed.

Lemma decode_encode (s : string) :
  str_all is_ascii s = true -> decode_ascii (list_byte_of_string s) = Ok s.
Proof.
  intros H. unfold decode_ascii.
  now rewrite forallb_ascii_bytes, H, string_of_list_byte_of_string.
Qed.

(* ================================================================== *)
(** * Decimal output and input                                          *)
(* ================================================================== *)

Lemma dec_digits_all_digits fuel : forall n,
  0 <= n -> str_all is_digit (dec_digits fuel n) = true.
Proof.
  induction fuel as [|k IH]; intros n Hn; simpl; [reflexivity|].
  destruct (n <? 10) eqn:E.
  - apply Z.ltb_lt in E. simpl. rewrite digit_char_is_digit by lia. reflexivity.
  - apply Z.ltb_ge in E. rewrite str_all_app, IH by (apply Z.div_pos; lia).
    simpl. rewrite digit_char_is_digit; [reflexivity|].
    apply Z.mod_pos_bound. lia.
Qed.

Lemma dec_digits_nonempty fuel n : dec_digits (S fuel) n <> "".
Proof.
  simpl. destruct (n <? 10); [discriminate|].
  destruct (dec_digits fuel (n / 10)); discriminate.
Qed.

Lemma dec_digits_length fuel : forall n k,
  0 <= n < 10 ^ Z.of_nat (S k) ->
  (String.length (dec_digits fuel n) <= S k)%nat.
Proof.
  induction fuel as [|f IH]; intros n k Hn; simpl; [lia|].
  destruct (n <? 10) eqn:E; simpl; [lia|].
  apply Z.ltb_ge in E. rewrite str_length_app. simpl.
  destruct k as [|k].
  - change (10 ^ Z.of_nat 1) with 10 in Hn. lia.
  - assert (Hd : 0 <= n / 10 < 10 ^ Z.of_nat (S k)).
    { split; [apply Z.div_pos; lia|].
      apply Z.div_lt_upper_bound; [lia|].
      replace (Z.of_nat (S (S k))) with (Z.succ (Z.of_nat (S k))) in Hn by lia.
      rewrite Z.pow_succ_r in Hn by lia. lia. }
    specialize (IH _ _ Hd). lia.
Qed.

Lemma int_body_snoc : forall s acc b v d,
  str_all is_digit s = true -> is_digit d = true ->
  int_body acc b s = Some v ->
  int_body acc b (s ++ String d "") = Some (10 * v + digit_val d).
Proof.
  induction s as [|c r IH]; intros acc b v d Hs Hd Hv; simpl in *.
  - rewrite Hd. destruct b; [|discriminate]. now inversion Hv.
  - apply andb_true_iff in Hs. destruct Hs as [Hc Hr].
    rewrite Hc in *. now apply IH.
Qed.

Lemma dec_digits_value fuel : forall n,
  0 <= n < 2 ^ Z.of_nat (S fuel) ->
  int_body 0 false (dec_digits (S fuel) n) = Some n.
Proof.
  induction fuel as [|k IH]; intros n Hn.
  - change (2 ^ Z.of_nat 1) with 2 in Hn. simpl.
    replace (n <? 10) with true by (symmetry; apply Z.ltb_lt; lia).
    simpl. rewrite digit_char_is_digit, digit_val_digit_char by lia.
    f_equal; lia.
  - change (dec_digits (S (S k)) n)
      with (if n <? 10 then String (digit_char n) ""
            else dec_digits (S k) (n / 10) ++ String (digit_char (n mod 10)) "").
    destruct (n <? 10) eqn:E.
    + apply Z.ltb_lt in E. simpl.
      rewrite digit_char_is_digit, digit_val_digit_char by lia. f_equal; lia.
    + apply Z.ltb_ge in E.
      assert (Hm : 0 <= n mod 10 < 10) by (apply Z.mod_pos_bound; lia).
      assert (Hd : 0 <= n / 10 < 2 ^ Z.of_nat (S k)).
      { split; [apply Z.div_pos; lia|].
        apply Z.div_lt_upper_bound; [lia|].
        replace (Z.of_nat (S (S k))) with (Z.succ (Z.of_nat (S k))) in Hn by lia.
        rewrite Z.pow_succ_r in Hn by lia. lia. }
      rewrite (int_body_snoc _ 0 false (n / 10)).
      * rewrite digit_val_digit_char by lia. f_equal.
        rewrite (Z.div_mod n 10) at 3 by lia. reflexivity.
      * apply dec_digits_all_digits. lia.
      * apply digit_char_is_digit. lia.
      * apply IH. exact Hd.
Qed.

Lemma digits_of_all_digits n : 0 <= n -> str_all is_digit (digits_of n) = true.
Proof. apply dec_digits_all_digits. Qed.

Lemma digits_of_nonempty n : digits_of n <> "".
Proof. apply dec_digits_nonempty. Qed.

Lemma digits_of_value n : 0 <= n -> int_body 0 false (digits_of n) = Some n.
Proof.
  intros Hn. apply dec_digits_value. split; [lia|].
  rewrite Nat2Z.inj_succ, Z2Nat.id by apply Z.log2_nonneg.
  destruct (Z.eq_dec n 0) as [->|Hz]; [reflexivity|].
  apply Z.log2_spec. lia.
Qed.

Lemma digits_of_length n k :
  0 <= n < 10 ^ Z.of_nat (S k) -> (String.length (digits_of n) <= S k)%nat.
Proof. apply dec_digits_length. Qed.

Lemma zeros_length k : String.length (zeros k) = k.
Proof. induction k; simpl; congruence. Qed.

Lemma zeros_all_digits k : str_all is_digit (zeros k) = true.
Proof. induction k; simpl; [reflexivity|exact IHk]. Qed.

Lemma int_body_zeros k : forall b s,
  int_body 0 b (zeros k ++ s) = int_body 0 (b || (0 <? k)%nat) s.
Proof.
  induction k as [|k IH]; intros b s.
  - simpl. now rewrite orb_false_r.
  - change (zeros (S k) ++ s) with (String "0" (zeros k ++ s)).
    change (int_body 0 b (String "0" (zeros k ++ s)))
      with (int_body 0 true (zeros k ++ s)).
    rewrite IH. now rewrite orb_true_r.
Qed.

Lemma int_body_first_digit acc b s :
  str_all is_digit s = true -> s <> "" ->
  int_body acc b s = int_body acc false s.
Proof.
  destruct s as [|c r]; [congruence|]. simpl.
  intros H _. apply andb_true_iff in H. destruct H as [-> _]. reflexivity.
Qed.

Lemma lstrip_digits s : str_all is_digit s = true -> lstrip s = s.
Proof.
  destruct s as [|c r]; simpl; [reflexivity|].
  intros H. apply andb_true_iff in H. destruct H as [H _].
  now rewrite (is_digit_not_space _ H).
Qed.

Lemma rstrip_digits s : str_all is_digit s = true -> rstrip s = s.
Proof.
  induction s as [|c r IH]; simpl; [reflexivity|].
  intros H. apply andb_true_iff in H. destruct H as [Hc Hr].
  rewrite (IH Hr). destruct r; [|reflexivity].
  now rewrite (is_digit_not_space _ Hc).
Qed.

Lemma int_opt_digits s :
  str_all is_digit s = true -> int_opt s = int_body 0 false s.
Proof.
  intros H. unfold int_opt. rewrite (lstrip_digits _ H), (rstrip_digits _ H).
  destruct s as [|c r]; [reflexivity|].
  simpl in H. apply andb_true_iff in H. destruct H as [H _].
  destruct c as [[] [] [] [] [] [] [] []]; try reflexivity; discriminate H.
Qed.

(** Reading back a zero-padded number gives the number. *)
Lemma int_format_0d width n : 0 <= n -> int (format_0d width n) = Ok n.
Proof.
  intros Hn. unfold int, format_0d, sign_of.
  replace (n <? 0) with false by (symmetry; apply Z.ltb_ge; lia).
  rewrite Z.abs_eq by lia. simpl.
  rewrite int_opt_digits
    by (rewrite str_all_app, zeros_all_digits, digits_of_all_digits; auto).
  rewrite int_body_zeros, int_body_first_digit, digits_of_value; auto.
  - apply digits_of_all_digits; lia.
  - apply digits_of_nonempty.
Qed.

Lemma format_0d_nonneg width n :
  0 <= n ->
  format_0d width n
  = zeros (width - String.length (digits_of n)) ++ digits_of n.
Proof.
  intros Hn. unfold format_0d, sign_of.
  replace (n <? 0) with false by (symmetry; apply Z.ltb_ge; lia).
  rewrite Z.abs_eq by lia. simpl. now rewrite Nat.sub_0_r.
Qed.

Lemma format_0d_all_digits width n :
  0 <= n -> str_all is_digit (format_0d width n) = true.
Proof.
  intros Hn. rewrite format_0d_nonneg by lia.
  now rewrite str_all_app, zeros_all_digits, digits_of_all_digits.
Qed.

(** A number that fits the width fills it exactly. *)
Lemma format_0d_length k n :
  0 <= n < 10 ^ Z.of_nat (S k) -> String.length (format_0d (S k) n) = S k.
Proof.
  intros Hn. rewrite format_0d_nonneg by lia.
  rewrite str_length_app, zeros_length.
  pose proof (digits_of_length n k Hn). lia.
Qed.

Lemma sign_of_wire x : str_all wire_char (sign_of x) = true.
Proof. unfold sign_of. destruct (x <? 0); reflexivity. Qed.

Lemma digits_wire s : str_all is_digit s = true -> str_all wire_char s = true.
Proof. apply str_all_impl, is_digit_wire_char. Qed.

Lemma str_int_wire x : str_all wire_char (str_int x) = true.
Proof.
  unfold str_int. rewrite str_all_app, sign_of_wire.
  apply digits_wire, digits_of_all_digits, Z.abs_nonneg.
Qed.

Lemma format_0d_wire width x : str_all wire_char (format_0d width x) = true.
Proof.
  unfold format_0d. rewrite !str_all_app, sign_of_wire.
  rewrite (digits_wire _ (zeros_all_digits _)).
  apply digits_wire, digits_of_all_digits, Z.abs_nonneg.
Qed.

(* ================================================================== *)
(** * The transaction engine                                            *)
(* ================================================================== *)

Lemma byte_eqb_refl b : Byte.eqb b b = true.
Proof. now apply Byte.byte_dec_lb. Qed.

Lemma byte_eqb_eq a b : Byte.eqb a b = true -> a = b.
Proof. apply Byte.byte_dec_bl. Qed.

Lemma read_loop_spec rx : forall response,
  read_loop rx response
  = ((response ++ reply_bytes rx)%list, reply_rest rx).
Proof.
  induction rx as [|[b|] rest IH]; intros response; simpl.
  - now rewrite app_nil_r.
  - destruct (Byte.eqb b semicolon).
    + now rewrite app_nil_r.
    + rewrite IH, <- app_assoc. reflexivity.
  - now rewrite app_nil_r.
Qed.

(** One transaction, step by step: nothing happens when the command
    cannot be encoded; otherwise the frame is written, the reply is read
    and then decoded. *)
Lemma send_command_unfold command ftx :
  _send_command command ftx
  = match encode_ascii (command ++ ";") with
    | Raise e => (Raise e, ftx)
    | Ok data =>
        (decode_ascii (reply_bytes (pending (ser ftx))),
         mkFTX (mkSerial (written (ser ftx) ++ [data])%list
                         (reply_rest (pending (ser ftx)))))
    end.
Proof.
  unfold _send_command, bind, lift, ser_write, ser_read_reply.
  destruct (encode_ascii (command ++ ";")) as [data|e]; [|reflexivity].
  simpl. rewrite read_loop_spec. simpl.
  destruct (decode_ascii (reply_bytes (pending (ser ftx)))); reflexivity.
Qed.

Lemma encode_frame command :
  str_all is_ascii command = true ->
  encode_ascii (command ++ ";") = Ok (frame_of command).
Proof.
  intros H. rewrite encode_ascii_ok by (rewrite str_all_app, H; reflexivity).
  now rewrite list_byte_of_string_app.
Qed.

Lemma send_command_ascii command ftx :
  str_all is_ascii command = true ->
  _send_command command ftx
  = (decode_ascii (reply_bytes (pending (ser ftx))),
     mkFTX (mkSerial (written (ser ftx) ++ [frame_of command])%list
                     (reply_rest (pending (ser ftx))))).
Proof.
  intros H. now rewrite send_command_unfold, encode_frame.
Qed.

Lemma reply_bytes_no_semicolon rx : ~ In semicolon (reply_bytes rx).
Proof.
  induction rx as [|[b|] rest IH]; simpl; try tauto.
  destruct (Byte.eqb b semicolon) eqn:E; simpl; [tauto|].
  intros [H|H]; [|tauto]. subst b. now rewrite byte_eqb_refl in E.
Qed.

(** Case (a) of the reading loop: the terminator arrives. *)
Lemma reply_bytes_terminated bs rest :
  ~ In semicolon bs ->
  reply_bytes (map Some bs ++ Some semicolon :: rest)%list = bs
  /\ reply_rest (map Some bs ++ Some semicolon :: rest)%list = rest.
Proof.
  induction bs as [|b bs IH]; simpl; intros H.
  - split; reflexivity.
  - destruct (Byte.eqb b semicolon) eqn:E.
    + apply byte_eqb_eq in E. tauto.
    + destruct IH as [-> ->]; tauto.
Qed.

(** Case (b) of the reading loop: a read times out first. *)
Lemma reply_bytes_timeout bs rest :
  ~ In semicolon bs ->
  reply_bytes (map Some bs ++ None :: rest)%list = bs
  /\ reply_bytes (map Some bs) = bs.
Proof.
  induction bs as [|b bs IH]; simpl; intros H; [tauto|].
  destruct (Byte.eqb b semicolon) eqn:E.
  - apply byte_eqb_eq in E. tauto.
  - destruct IH as [-> ->]; tauto.
Qed.

Lemma no_semicolon_string_of_bytes bs :
  ~ In semicolon bs -> str_all not_semicolon (string_of_list_byte bs) = true.
Proof.
  intros H. rewrite str_all_string_of_bytes. apply forallb_forall.
  intros b Hb. unfold not_semicolon. rewrite semicolon_eqb_ascii_of_byte.
  destruct (Byte.eqb b semicolon) eqn:E; [|reflexivity].
  apply byte_eqb_eq in E. congruence.
Qed.

(** Whatever a transaction returns holds no terminator. *)
Lemma send_command_never_semicolon command ftx response :
  fst (_send_command command ftx) = Ok response ->
  str_all not_semicolon response = true.
Proof.
  rewrite send_command_unfold.
  destruct (encode_ascii (command ++ ";")); simpl; [|discriminate].
  unfold decode_ascii.
  destruct (forallb is_ascii_byte (reply_bytes (pending (ser ftx))));
    [|discriminate].
  intros E. inversion E. apply no_semicolon_string_of_bytes.
  apply reply_bytes_no_semicolon.
Qed.

(** A transaction on a transport that answers [reply]. *)
Lemma send_command_replies command reply ftx :
  str_all is_ascii command = true ->
  str_all wire_char reply = true ->
  replies reply ftx ->
  fst (_send_command command ftx) = Ok reply.
Proof.
  intros Hc Hr [rest Hp]. rewrite send_command_ascii by exact Hc. simpl.
  rewrite Hp, list_byte_of_string_app, map_app, <- app_assoc.
  change (map Some (list_byte_of_string ";") ++ rest)%list
    with (Some semicolon :: rest).
  destruct (reply_bytes_terminated (list_byte_of_string reply) rest) as [-> _].
  - apply not_in_semicolon_bytes, wire_char_not_semicolon, Hr.
  - apply decode_encode, wire_char_ascii, Hr.
Qed.

(** ** The frames written by the steps of a computation *)

Lemma writes_frames_ret {A} (a : A) : writes_frames (ret a).
Proof.
  intros ftx. exists []. split; [|constructor].
  unfold sends. simpl. now rewrite app_nil_r.
Qed.

Lemma writes_frames_lift {A} (r : result A) : writes_frames (lift r).
Proof.
  intros ftx. exists []. split; [|constructor].
  unfold sends. simpl. now rewrite app_nil_r.
Qed.

Lemma writes_frames_raise {A} e : writes_frames (@raise A e).
Proof.
  intros ftx. exists []. split; [|constructor].
  unfold sends. simpl. now rewrite app_nil_r.
Qed.

Lemma writes_frames_bind {A B} (m : M A) (k : A -> M B) :
  writes_frames m -> (forall a, writes_frames (k a)) ->
  writes_frames (bind m k).
Proof.
  intros Hm Hk ftx. destruct (Hm ftx) as [f1 [S1 F1]].
  unfold sends, bind in *. destruct (m ftx) as [[a|e] ftx1]; simpl in *.
  - destruct (Hk a ftx1) as [f2 [S2 F2]]. exists (f1 ++ f2)%list.
    split; [|now apply Forall_app].
    unfold sends in S2. now rewrite S2, S1, app_assoc.
  - exists f1. tauto.
Qed.

Lemma frame_of_ok command :
  str_all not_semicolon command = true -> frame_ok (frame_of command).
Proof.
  intros H. exists (list_byte_of_string command). split; [reflexivity|].
  now apply not_in_semicolon_bytes.
Qed.

Lemma writes_frames_send command :
  str_all wire_char command = true -> writes_frames (_send_command command).
Proof.
  intros H ftx. exists [frame_of command]. split.
  - unfold sends. now rewrite send_command_ascii by now apply wire_char_ascii.
  - constructor; [|constructor].
    now apply frame_of_ok, wire_char_not_semicolon.
Qed.

Lemma bind_fst {A B} (m : M A) (k : A -> M B) ftx a :
  fst (m ftx) = Ok a -> fst (bind m k ftx) = fst (k a (snd (m ftx))).
Proof. unfold bind. destruct (m ftx) as [r ftx']. simpl. now intros ->. Qed.

(** A setter: one transaction whose reply is dropped. *)
Lemma sends_setter command ftx :
  str_all is_ascii command = true ->
  sends (_send_command command ;; ret tt) ftx [frame_of command].
Proof.
  intros H. unfold sends, bind. rewrite send_command_ascii by exact H.
  destruct (decode_ascii (reply_bytes (pending (ser ftx)))); reflexivity.
Qed.

(* ================================================================== *)
(** * Properties of the transaction engine                              *)
(* ================================================================== *)

(** C1, as stated, fails: a reply holding a byte above 127 makes
    [_send_command] raise [UnicodeDecodeError] instead of returning the
    bytes read before the terminator. *)
Lemma send_command_reply_not_ascii :
  ~ (forall command ftx,
        exists response,
          fst (_send_command command ftx) = Ok response
          /\ list_byte_of_string response = reply_bytes (pending (ser ftx))).
Proof.
  intros H.
  destruct (H "FA" (mkFTX (mkSerial [] [Some xff; Some semicolon])))
    as [response [E _]].
  vm_compute in E. discriminate E.
Qed.

(** C1 (amended): for a 7-bit command body, on a transport whose bytes
    before the first terminator or timeout are 7-bit, the engine writes
    the body followed by exactly one [;], reads up to the first [;] or
    timeout and returns exactly the bytes before it (all of them when
    the terminator arrives, the ones accumulated when a read times out
    first); the returned string holds no [;]. *)
Theorem send_command_transaction command ftx :
  str_all is_ascii command = true ->
  forallb is_ascii_byte (reply_bytes (pending (ser ftx))) = true ->
  exists response ftx',
    _send_command command ftx = (Ok response, ftx')
    /\ written (ser ftx')
       = (written (ser ftx) ++ [list_byte_of_string command ++ [semicolon]])%list
    /\ pending (ser ftx') = reply_rest (pending (ser ftx))
    /\ list_byte_of_string response = reply_bytes (pending (ser ftx))
    /\ (forall bs rest, ~ In semicolon bs ->
          pending (ser ftx) = (map Some bs ++ Some semicolon :: rest)%list ->
          list_byte_of_string response = bs)
    /\ (forall bs rest, ~ In semicolon bs ->
          pending (ser ftx) = (map Some bs ++ None :: rest)%list
          \/ pending (ser ftx) = map Some bs ->
          list_byte_of_string response = bs)
    /\ str_all not_semicolon response = true.
Proof.
  intros Hc Hr.
  exists (string_of_list_byte (reply_bytes (pending (ser ftx)))).
  eexists. rewrite send_command_ascii by exact Hc.
  unfold decode_ascii. rewrite Hr.
  rewrite list_byte_of_string_of_list_byte.
  split; [reflexivity|]. simpl.
  split; [reflexivity|]. split; [reflexivity|]. split; [reflexivity|].
  split; [|split].
  - intros bs rest Hbs ->. now apply reply_bytes_terminated.
  - intros bs rest Hbs [-> | ->]; now apply (reply_bytes_timeout bs rest).
  - apply no_semicolon_string_of_bytes, reply_bytes_no_semicolon.
Qed.

Lemma send_command_transaction_witness :
  exists response ftx',
    _send_command "FA"
      (mkFTX (mkSerial [] (map Some (list_byte_of_string "FA0142")))) 
    = (Ok response, ftx')
    /\ written (ser ftx') = ([] ++ [list_byte_of_string "FA" ++ [semicolon]])%list
    /\ pending (ser ftx') = reply_rest (map Some (list_byte_of_string "FA0142"))
    /\ list_byte_of_string response
       = reply_bytes (map Some (list_byte_of_string "FA0142"))
    /\ (forall bs rest, ~ In semicolon bs ->
          map Some (list_byte_of_string "FA0142")
          = (map Some bs ++ Some semicolon :: rest)%list ->
          list_byte_of_string response = bs)
    /\ (forall bs rest, ~ In semicolon bs ->
          map Some (list_byte_of_string "FA0142")
          = (map Some bs ++ None :: rest)%list
          \/ map Some (list_byte_of_string "FA0142") = map Some bs ->
          list_byte_of_string response = bs)
    /\ str_all not_semicolon response = true.
Proof.
  apply (send_command_transaction "FA"
           (mkFTX (mkSerial [] (map Some (list_byte_of_string "FA0142")))));
    reflexivity.
Defined.

(* ================================================================== *)
(** * Properties of the catalog                                         *)
(* ================================================================== *)

Lemma getter_int command reply (n : nat) ftx :
  str_all is_ascii command = true ->
  str_all wire_char reply = true ->
  replies reply ftx ->
  fst ((response <- _send_command command ;;
        lift (int (slice_from n response))) ftx)
  = int (slice_from n reply).
Proof.
  intros Hc Hr Hp.
  now rewrite (bind_fst _ _ _ reply) by now apply send_command_replies.
Qed.

(** C2: a frequency from 30000 to 470000000 is sent as nine zero-padded
    digits after [FA] (or [FB]), and reading the frequency back from a
    reply that echoes this body gives the same frequency. *)
Theorem frequency_round_trip f ftx ftx_main ftx_sub :
  30000 <= f <= 470000000 ->
  replies ("FA" ++ format_0d 9 f) ftx_main ->
  replies ("FB" ++ format_0d 9 f) ftx_sub ->
  String.length (format_0d 9 f) = 9%nat
  /\ str_all is_digit (format_0d 9 f) = true
  /\ sends (set_frequency_main f) ftx [frame_of ("FA" ++ format_0d 9 f)]
  /\ fst (get_frequency_main ftx_main) = Ok f
  /\ sends (set_frequency_sub f) ftx [frame_of ("FB" ++ format_0d 9 f)]
  /\ fst (get_frequency_sub ftx_sub) = Ok f.
Proof.
  intros Hf Hmain Hsub.
  assert (Hw : forall p, str_all wire_char p = true ->
                         str_all wire_char (p ++ format_0d 9 f) = true).
  { intros p Hp. now rewrite str_all_app, Hp, format_0d_wire. }
  split; [apply format_0d_length; change (10 ^ Z.of_nat 9) with 1000000000; lia|].
  split; [apply format_0d_all_digits; lia|].
  split; [|split; [|split]].
  - apply sends_setter, wire_char_ascii, Hw. reflexivity.
  - unfold get_frequency_main.
    rewrite (getter_int "FA" ("FA" ++ format_0d 9 f)); auto.
    simpl. apply int_format_0d. lia.
  - apply sends_setter, wire_char_ascii, Hw. reflexivity.
  - unfold get_frequency_sub.
    rewrite (getter_int "FB" ("FB" ++ format_0d 9 f)); auto.
    simpl. apply int_format_0d. lia.
Qed.

Lemma frequency_round_trip_witness :
  let ftx := mkFTX (mkSerial [] []) in
  let ftx_main :=
    mkFTX (mkSerial [] (map Some (list_byte_of_string "FA014250000;"))) in
  let ftx_sub :=
    mkFTX (mkSerial [] (map Some (list_byte_of_string "FB014250000;MD02;"))) in
  String.length (format_0d 9 14250000) = 9%nat
  /\ str_all is_digit (format_0d 9 14250000) = true
  /\ sends (set_frequency_main 14250000) ftx [frame_of "FA014250000"]
  /\ fst (get_frequency_main ftx_main) = Ok 14250000
  /\ sends (set_frequency_sub 14250000) ftx [frame_of "FB014250000"]
  /\ fst (get_frequency_sub ftx_sub) = Ok 14250000.
Proof.
  intros ftx ftx_main ftx_sub.
  apply (frequency_round_trip 14250000 ftx ftx_main ftx_sub).
  - lia.
  - exists []. reflexivity.
  - exists (map Some (list_byte_of_string "MD02;")). reflexivity.
Defined.

(** C3: a memory channel outside 1..99 makes [set_memory_channel] raise
    [ValueError] and leaves the controller as it was: nothing is written
    and nothing is read. *)
Theorem set_memory_channel_out_of_range channel side ftx :
  channel < 1 \/ 99 < channel ->
  set_memory_channel channel side ftx = (Raise ValueError, ftx)
  /\ sends (set_memory_channel channel side) ftx [].
Proof.
  intros H. unfold sends, set_memory_channel.
  replace ((1 <=? channel) && (channel <=? 99)) with false.
  - simpl. now rewrite app_nil_r.
  - symmetry. apply andb_false_iff.
    destruct H; [left; apply Z.leb_gt|right; apply Z.leb_gt]; lia.
Qed.

Lemma set_memory_channel_out_of_range_witness :
  let ftx := mkFTX (mkSerial [] []) in
  (set_memory_channel 0 0 ftx = (Raise ValueError, ftx)
   /\ sends (set_memory_channel 0 0) ftx [])
  /\ (set_memory_channel 100 1 ftx = (Raise ValueError, ftx)
      /\ sends (set_memory_channel 100 1) ftx [])
  /\ (set_memory_channel (-5) 0 ftx = (Raise ValueError, ftx)
      /\ sends (set_memory_channel (-5) 0) ftx []).
Proof.
  intros ftx. split; [|split].
  - apply (set_memory_channel_out_of_range 0 0 ftx). lia.
  - apply (set_memory_channel_out_of_range 100 1 ftx). lia.
  - apply (set_memory_channel_out_of_range (-5) 0 ftx). lia.
Defined.

(** ** The end-to-end scenarios *)

Example scenario_frequency :
  get_frequency_main
    (mkFTX (mkSerial [] (map Some (list_byte_of_string "FA014250000;"))))
  = (Ok 14250000, mkFTX (mkSerial [list_byte_of_string "FA;"] [])).
Proof. reflexivity. Qed.

Example scenario_mode :
  fst (get_mode 0 (mkFTX (mkSerial [] (map Some (list_byte_of_string "MD02;")))))
  = Ok "2".
Proof. reflexivity. Qed.

Example scenario_ptt :
  fst (get_ptt_status
         (mkFTX (mkSerial [] (map Some (list_byte_of_string "TX2;"))))) = Ok true
  /\ fst (get_ptt_status
            (mkFTX (mkSerial [] (map Some (list_byte_of_string "TX0;")))))
     = Ok false.
Proof. split; reflexivity. Qed.

Example scenario_timeout :
  fst (_send_command "FA"
         (mkFTX (mkSerial [] [Some "F"%byte; Some "A"%byte; None;
                              Some "0"%byte]))) = Ok "FA"
  /\ fst (_send_command "FA" (mkFTX (mkSerial [] []))) = Ok "".
Proof. split; reflexivity. Qed.

(** ** Decoders on short replies *)

Lemma send_command_next command ftx :
  str_all is_ascii command = true ->
  fst (_send_command command ftx) = next_reply ftx.
Proof. intros H. now rewrite send_command_ascii. Qed.

Lemma str_int_ascii x : str_all is_ascii (str_int x) = true.
Proof. apply wire_char_ascii, str_int_wire. Qed.

Lemma side_command_ascii (mnemonic : string) x :
  str_all is_ascii mnemonic = true ->
  str_all is_ascii (mnemonic ++ str_int x) = true.
Proof. intros H. now rewrite str_all_app, H, str_int_ascii. Qed.

Lemma slice_from_short n : forall s,
  (String.length s <= n)%nat -> slice_from n s = "".
Proof.
  induction n as [|n IH]; intros [|c r]; simpl; intros H;
    try reflexivity; try lia.
  apply IH. lia.
Qed.

Lemma slice_short a b s : (String.length s <= a)%nat -> slice a b s = "".
Proof.
  intros H. unfold slice. rewrite slice_from_short by exact H.
  destruct (b - a)%nat; reflexivity.
Qed.

Lemma index_short i : forall s,
  (String.length s <= i)%nat -> index i s = Raise IndexError.
Proof.
  unfold index. induction i as [|i IH]; intros [|c r]; simpl; intros H;
    try reflexivity; try lia.
  apply IH. lia.
Qed.

Lemma int_raises_only_ValueError s :
  (exists z, int s = Ok z) \/ int s = Raise ValueError.
Proof. unfold int. destruct (int_opt s); eauto. Qed.

Lemma index_raises_only_IndexError i s :
  (exists c, index i s = Ok c) \/ index i s = Raise IndexError.
Proof. unfold index. destruct (String.get i s); eauto. Qed.

(** After the transaction, a getter is a function of the reply. *)
Ltac after_reply H :=
  match goal with
  | |- context [fst (bind (_send_command ?c) ?k ?ftx)] =>
      rewrite (bind_fst (_send_command c) k ftx _
                 (eq_trans (send_command_next c ftx ltac:(auto using side_command_ascii)) H))
  end.

(** C4, as stated, fails: on the empty reply of a timeout [get_mode]
    returns the empty string, where the claim wants an error. *)
Lemma get_mode_empty_reply :
  ~ (forall side ftx reply,
        next_reply ftx = Ok reply -> (String.length reply < 4)%nat ->
        exists e, fst (get_mode side ftx) = Raise e).
Proof.
  intros H.
  destruct (H 0 (mkFTX (mkSerial [] [])) "" eq_refl) as [e E].
  - simpl. lia.
  - vm_compute in E. discriminate E.
Qed.

(** C4 (amended): when the transaction returns a reply that is too
    short, the decoders that take one character at a fixed index (PTT,
    split, power: fewer than 3 characters; info: fewer than 29) raise;
    the decoders that convert a slice to a number raise [ValueError] when
    the reply ends before the slice begins (frequency and CW speed: at
    most 2 characters; gain, squelch, S-meter: at most 3; the two-field
    meter: at most 6), so in particular on the empty reply of a timeout;
    the decoders that return a slice as text (mode, AGC, identity,
    firmware) never raise and return what is left after the prefix,
    which is the empty string for a reply no longer than the prefix. *)
Theorem decoders_on_short_reply (pyfloat : Type)
    (float : string -> result pyfloat) ftx reply (side meter cpu : Z) :
  next_reply ftx = Ok reply ->
  ((String.length reply < 3)%nat ->
     fst (get_ptt_status ftx) = Raise IndexError
     /\ fst (get_split ftx) = Raise IndexError
     /\ fst (get_rf_power pyfloat float ftx) = Raise IndexError)
  /\ ((String.length reply < 29)%nat ->
        exists e, fst (get_radio_info ftx) = Raise e)
  /\ ((String.length reply <= 2)%nat ->
        fst (get_frequency_main ftx) = Raise ValueError
        /\ fst (get_frequency_sub ftx) = Raise ValueError
        /\ fst (get_cw_speed ftx) = Raise ValueError)
  /\ ((String.length reply <= 3)%nat ->
        fst (get_af_gain side ftx) = Raise ValueError
        /\ fst (get_squelch side ftx) = Raise ValueError
        /\ fst (get_s_meter side ftx) = Raise ValueError)
  /\ ((String.length reply <= 6)%nat ->
        fst (get_meter_reading meter ftx) = Raise ValueError)
  /\ fst (get_mode side ftx) = Ok (slice_from 3 reply)
  /\ fst (get_agc side ftx) = Ok (slice_from 3 reply)
  /\ fst (get_id ftx) = Ok (slice_from 2 reply)
  /\ fst (get_firmware_version cpu ftx) = Ok (slice_from 3 reply).
Proof.
  intros Hr. repeat match goal with |- _ /\ _ => split end.
  - intros Hl.
    unfold get_ptt_status, get_split, get_rf_power.
    repeat split; after_reply Hr; unfold bind, lift;
      rewrite index_short by lia; reflexivity.
  - intros Hl. unfold get_radio_info. after_reply Hr.
    assert (H28 : index 28 reply = Raise IndexError) by (apply index_short; lia).
    unfold bind, lift, ret.
    repeat match goal with
           | |- context [match ?r with Ok _ => _ | Raise _ => _ end] =>
               destruct r eqn:?; simpl; eauto
           | |- context [let (_, _) := (?r, _) in _] =>
               destruct r eqn:?; simpl; eauto
           end; congruence.
  - intros Hl. unfold get_frequency_main, get_frequency_sub, get_cw_speed.
    repeat split; after_reply Hr; unfold lift; cbn [fst];
      rewrite ?slice_from_short, ?slice_short by lia; reflexivity.
  - intros Hl. unfold get_af_gain, get_squelch, get_s_meter.
    repeat split; after_reply Hr; unfold lift; cbn [fst];
      rewrite slice_short by lia; reflexivity.
  - intros Hl. unfold get_meter_reading. after_reply Hr.
    unfold bind, lift. rewrite (slice_short 6 9) by lia.
    destruct (int_raises_only_ValueError (slice 3 6 reply)) as [[z ->]| ->];
      reflexivity.
  - unfold get_mode. now after_reply Hr.
  - unfold get_agc. now after_reply Hr.
  - unfold get_id. now after_reply Hr.
  - unfold get_firmware_version. now after_reply Hr.
Qed.

Lemma decoders_on_short_reply_witness :
  let ftx := mkFTX (mkSerial [] []) in
  let float := fun _ : string => @Raise unit ValueError in
  (fst (get_ptt_status ftx) = Raise IndexError
   /\ fst (get_split ftx) = Raise IndexError
   /\ fst (get_rf_power unit float ftx) = Raise IndexError)
  /\ (exists e, fst (get_radio_info ftx) = Raise e)
  /\ (fst (get_frequency_main ftx) = Raise ValueError
      /\ fst (get_frequency_sub ftx) = Raise ValueError
      /\ fst (get_cw_speed ftx) = Raise ValueError)
  /\ (fst (get_af_gain 0 ftx) = Raise ValueError
      /\ fst (get_squelch 0 ftx) = Raise ValueError
      /\ fst (get_s_meter 0 ftx) = Raise ValueError)
  /\ fst (get_meter_reading 1 ftx) = Raise ValueError
  /\ fst (get_mode 0 ftx) = Ok ""
  /\ fst (get_agc 0 ftx) = Ok ""
  /\ fst (get_id ftx) = Ok ""
  /\ fst (get_firmware_version 0 ftx) = Ok "".
Proof.
  intros ftx float.
  destruct (decoders_on_short_reply unit float ftx "" 0 1 0 eq_refl)
    as (H1 & H2 & H3 & H4 & H5 & H6).
  split; [apply H1; simpl; lia|].
  split; [apply H2; simpl; lia|].
  split; [apply H3; simpl; lia|].
  split; [apply H4; simpl; lia|].
  split; [apply H5; simpl; lia|].
  exact H6.
Defined.

(** A reply that stops inside a numeric slice is decoded from the part
    that arrived. *)
Example get_frequency_main_partial_reply :
  fst (get_frequency_main
         (mkFTX (mkSerial [] (map Some (list_byte_of_string "FA014")))))
  = Ok 14.
Proof. reflexivity. Qed.

(** ** Setters and the documented ranges *)

(** C5: the setters other than [set_memory_channel] do not check their
    argument: a frequency of 0 Hz, a CW speed of 100 WPM, a CW pitch of
    2000 Hz, an IF shift of 5000 Hz and a clarifier offset of 20000 Hz
    are all formatted and written to the transport, and the call returns
    normally. *)
Theorem range_setters_send_out_of_range :
  let ftx := mkFTX (mkSerial [] []) in
  let sent frames := (Ok tt, mkFTX (mkSerial frames [])) in
  set_frequency_main 0 ftx = sent [list_byte_of_string "FA000000000;"]
  /\ set_frequency_sub 999999999 ftx = sent [list_byte_of_string "FB999999999;"]
  /\ set_cw_speed 100 ftx = sent [list_byte_of_string "KS100;"]
  /\ set_cw_pitch 2000 ftx = sent [list_byte_of_string "KP170;"]
  /\ set_if_shift 5000 0 ftx = sent [list_byte_of_string "IS00+5000;"]
  /\ set_clarifier true false 20000 0 ftx
     = sent [list_byte_of_string "CF00010000;";
             list_byte_of_string "CF001+20000;"].
Proof. repeat split. Qed.

(** ** The clarifier *)

Ltac wire :=
  repeat first
    [ rewrite str_all_app | rewrite str_int_wire | rewrite format_0d_wire
    | match goal with
      | |- context [match ?b with true => _ | false => _ end] => destruct b
      end
    | progress cbn [str_all append wire_char is_ascii not_semicolon
                    Ascii.eqb Bool.eqb negb andb] ];
  try reflexivity.

Lemma clarifier_flags_wire (rx_on tx_on : bool) side :
  str_all wire_char
    ("CF" ++ str_int side ++ "00" ++ (if rx_on then "1" else "0")
       ++ (if tx_on then "1" else "0") ++ "000") = true.
Proof. wire. Qed.

Lemma clarifier_offset_wire offset_hz side :
  str_all wire_char
    ("CF" ++ str_int side ++ "01" ++ (if offset_hz >=? 0 then "+" else "-")
       ++ format_0d 4 (Z.abs offset_hz)) = true.
Proof. wire. Qed.

(** The writes of [set_clarifier]: the flags frame always, and the
    offset frame after it once the flags transaction has returned. *)
Lemma set_clarifier_sends (rx_on tx_on : bool) (offset_hz side : Z) ftx :
  let flags := "CF" ++ str_int side ++ "00" ++ (if rx_on then "1" else "0")
                 ++ (if tx_on then "1" else "0") ++ "000" in
  let offset := "CF" ++ str_int side ++ "01"
                  ++ (if offset_hz >=? 0 then "+" else "-")
                  ++ format_0d 4 (Z.abs offset_hz) in
  match next_reply ftx with
  | Ok _ =>
      sends (set_clarifier rx_on tx_on offset_hz side) ftx
        [frame_of flags; frame_of offset]
  | Raise e =>
      fst (set_clarifier rx_on tx_on offset_hz side ftx) = Raise e
      /\ sends (set_clarifier rx_on tx_on offset_hz side) ftx [frame_of flags]
  end.
Proof.
  intros flags offset. unfold set_clarifier, sends, bind.
  fold flags. fold offset.
  rewrite (send_command_ascii flags)
    by apply wire_char_ascii, clarifier_flags_wire.
  unfold next_reply.
  destruct (decode_ascii (reply_bytes (pending (ser ftx)))) as [r|e].
  - rewrite (send_command_ascii offset)
      by apply wire_char_ascii, clarifier_offset_wire.
    cbn [ser written pending].
    match goal with
    | |- context [decode_ascii ?x] => destruct (decode_ascii x)
    end; cbn [snd ser written ret]; now rewrite <- app_assoc.
  - split; reflexivity.
Qed.

(** C7, as stated, fails: when the reply to the flags command holds a
    byte above 127 the first transaction raises and the offset command
    is never sent, so the call issues one transaction, not two. *)
Lemma set_clarifier_flags_reply_not_ascii :
  ~ (forall (rx_on tx_on : bool) (offset_hz side : Z) ftx,
        exists flags offset,
          sends (set_clarifier rx_on tx_on offset_hz side) ftx [flags; offset]).
Proof.
  intros H.
  destruct (H true false 0 0 (mkFTX (mkSerial [] [Some xff])))
    as [flags [offset E]].
  unfold sends in E. vm_compute in E. discriminate E.
Qed.

(** C7 (amended): [set_clarifier] first sends the flags command
    [CF{side}00{rx}{tx}000]; when that transaction returns, it then sends
    the offset command [CF{side}01{sign}{magnitude}], and these two
    frames, in this order, are all it writes; when the flags transaction
    raises (its reply is not 7-bit), the call raises the same exception
    having written the flags frame only.  The offset frame is never
    written before the flags frame. *)
Theorem set_clarifier_transactions (rx_on tx_on : bool) (offset_hz side : Z) ftx :
  let flags := frame_of ("CF" ++ str_int side ++ "00"
                           ++ (if rx_on then "1" else "0")
                           ++ (if tx_on then "1" else "0") ++ "000") in
  let offset := frame_of ("CF" ++ str_int side ++ "01"
                            ++ (if offset_hz >=? 0 then "+" else "-")
                            ++ format_0d 4 (Z.abs offset_hz)) in
  ((exists reply, next_reply ftx = Ok reply)
   /\ sends (set_clarifier rx_on tx_on offset_hz side) ftx [flags; offset])
  \/ ((exists e, next_reply ftx = Raise e
                 /\ fst (set_clarifier rx_on tx_on offset_hz side ftx) = Raise e)
      /\ sends (set_clarifier rx_on tx_on offset_hz side) ftx [flags]).
Proof.
  intros flags offset.
  pose proof (set_clarifier_sends rx_on tx_on offset_hz side ftx) as H.
  cbv zeta in H. destruct (next_reply ftx) as [reply|e].
  - left. split; [now exists reply | exact H].
  - right. destruct H as [H1 H2]. split; [now exists e | exact H2].
Qed.

(** C10: for an offset of zero both signed encoders write the sign [+]:
    [set_if_shift] sends [IS{side}0+0000], and the offset command of
    [set_clarifier], whenever it is sent, is [CF{side}01+0000]. *)
Theorem zero_offset_is_plus (rx_on tx_on : bool) (side : Z) ftx :
  sends (set_if_shift 0 side) ftx [frame_of ("IS" ++ str_int side ++ "0+0000")]
  /\ exists flags rest,
       sends (set_clarifier rx_on tx_on 0 side) ftx (flags :: rest)
       /\ (rest = [frame_of ("CF" ++ str_int side ++ "01+0000")]
           \/ rest = [] /\ exists e, next_reply ftx = Raise e).
Proof.
  split.
  - unfold set_if_shift. apply sends_setter, wire_char_ascii. wire.
  - pose proof (set_clarifier_sends rx_on tx_on 0 side ftx) as H.
    cbv zeta in H. destruct (next_reply ftx) as [reply|e].
    + do 2 eexists. split; [exact H|]. left. reflexivity.
    + destruct H as [_ H]. do 2 eexists. split; [exact H|].
      right. split; [reflexivity|now exists e].
Qed.

(** Decoding the clarifier fields of an info reply: [prefix] stands for
    the 16 characters before the direction character (mnemonic, memory
    channel and frequency), [suffix] for the 8 or more that follow the
    offset. *)
Lemma radio_info_clarifier_fields ftx (prefix suffix : string) f sgn m1 m2 m3 m4 n :
  String.length prefix = 16%nat ->
  int (slice_from 7 prefix) = Ok f ->
  (8 <= String.length suffix)%nat ->
  int (String m1 (String m2 (String m3 (String m4 "")))) = Ok n ->
  next_reply ftx
  = Ok (prefix ++ String sgn (String m1 (String m2 (String m3 (String m4 ""))))
          ++ suffix) ->
  exists info,
    fst (get_radio_info ftx) = Ok info
    /\ clar_direction info = String sgn ""
    /\ clar_offset info = n.
Proof.
  intros Hp Hf Hs Hn Hr. unfold get_radio_info. after_reply Hr.
  do 16 (destruct prefix as [|? prefix]; [discriminate Hp|]).
  destruct prefix; [|discriminate Hp].
  do 8 (destruct suffix as [|? suffix]; [cbn [String.length] in Hs; lia|]).
  cbn [slice_from] in Hf.
  unfold bind, lift, ret.
  cbn [append slice slice_from str_take Nat.sub index String.get].
  rewrite Hf. cbn. rewrite Hn. cbn.
  eexists. split; [reflexivity|]. split; reflexivity.
Qed.

(** The round trip at one offset whose encoded field is known. *)
Lemma clarifier_round_trip_at (offset_hz : Z) sgn m1 m2 m3 m4
    ftx (prefix suffix : string) f :
  (if offset_hz >=? 0 then "+" else "-") ++ format_0d 4 (Z.abs offset_hz)
  = String sgn (String m1 (String m2 (String m3 (String m4 "")))) ->
  String.eqb (String sgn "") "-" = (offset_hz <? 0) ->
  String.length prefix = 16%nat ->
  int (slice_from 7 prefix) = Ok f ->
  (8 <= String.length suffix)%nat ->
  next_reply ftx
  = Ok (prefix ++ String sgn (String m1 (String m2 (String m3 (String m4 ""))))
          ++ suffix) ->
  exists info,
    fst (get_radio_info ftx) = Ok info
    /\ clar_direction info = String sgn ""
    /\ clar_offset info = Z.abs offset_hz
    /\ clar_signed info = offset_hz.
Proof.
  intros Hfield Hsgn Hp Hf Hs Hr.
  assert (Hn : int (String m1 (String m2 (String m3 (String m4 ""))))
               = Ok (Z.abs offset_hz)).
  { rewrite <- (int_format_0d 4 (Z.abs offset_hz)) by apply Z.abs_nonneg.
    destruct (offset_hz >=? 0); simpl in Hfield; now inversion Hfield. }
  destruct (radio_info_clarifier_fields ftx prefix suffix f sgn m1 m2 m3 m4
              (Z.abs offset_hz) Hp Hf Hs Hn Hr) as [info [H1 [H2 H3]]].
  exists info. repeat split; auto.
  unfold clar_signed. rewrite H2, H3, Hsgn.
  destruct (offset_hz <? 0) eqn:E;
    [apply Z.ltb_lt in E | apply Z.ltb_ge in E]; lia.
Qed.

(** C6: for each offset in -9995, -1, 0, 1, 9995 the offset command of
    [set_clarifier] carries, after [CF{side}01], one sign character
    ([+] or [-]) and then the magnitude as four zero-padded digits; and
    from an info reply that echoes these five characters at their place
    (after the 16 characters of mnemonic, memory channel and frequency)
    [get_radio_info] gives that sign as [clar_direction] and the
    magnitude as [clar_offset], which together stand for the original
    signed offset. *)
Theorem clarifier_offset_round_trip (offset_hz : Z) (rx_on tx_on : bool)
    (side : Z) ftx0 reply0 ftx (prefix suffix : string) f :
  let field := (if offset_hz >=? 0 then "+" else "-")
                 ++ format_0d 4 (Z.abs offset_hz) in
  In offset_hz [-9995; -1; 0; 1; 9995] ->
  next_reply ftx0 = Ok reply0 ->
  String.length prefix = 16%nat ->
  int (slice_from 7 prefix) = Ok f ->
  (8 <= String.length suffix)%nat ->
  next_reply ftx = Ok (prefix ++ field ++ suffix) ->
  sends (set_clarifier rx_on tx_on offset_hz side) ftx0
    [frame_of ("CF" ++ str_int side ++ "00" ++ (if rx_on then "1" else "0")
                 ++ (if tx_on then "1" else "0") ++ "000");
     frame_of ("CF" ++ str_int side ++ "01" ++ field)]
  /\ exists sgn mag,
       field = String sgn mag
       /\ (sgn = "+"%char \/ sgn = "-"%char)
       /\ String.length mag = 4%nat
       /\ str_all is_digit mag = true
       /\ int mag = Ok (Z.abs offset_hz)
       /\ exists info,
            fst (get_radio_info ftx) = Ok info
            /\ clar_direction info = String sgn ""
            /\ clar_offset info = Z.abs offset_hz
            /\ clar_signed info = offset_hz.
Proof.
  intros field Hin H0 Hp Hf Hs Hr. split.
  - pose proof (set_clarifier_sends rx_on tx_on offset_hz side ftx0) as H.
    cbv zeta in H. rewrite H0 in H. exact H.
  - subst field.
    destruct Hin as [E|[E|[E|[E|[E|[]]]]]]; subst offset_hz;
      match type of Hr with
      | context [prefix ++ ?fld ++ suffix] =>
          let v := eval vm_compute in fld in
          change fld with v in Hr |- *;
          match v with
          | String ?sgn ?mag =>
              exists sgn, mag;
              split; [reflexivity|];
              split; [auto|];
              split; [reflexivity|];
              split; [reflexivity|];
              split; [reflexivity|];
              eapply clarifier_round_trip_at; eauto; reflexivity
          end
      end.
Qed.

Lemma clarifier_offset_round_trip_witness :
  let ftx0 := mkFTX (mkSerial [] (map Some (list_byte_of_string "?;"))) in
  let ftx :=
    mkFTX (mkSerial []
             (map Some (list_byte_of_string "IF00001014250000-9995100000000;")))
  in
  sends (set_clarifier true false (-9995) 0) ftx0
    [frame_of "CF00010000"; frame_of "CF001-9995"]
  /\ exists sgn mag,
       "-9995" = String sgn mag
       /\ (sgn = "+"%char \/ sgn = "-"%char)
       /\ String.length mag = 4%nat
       /\ str_all is_digit mag = true
       /\ int mag = Ok 9995
       /\ exists info,
            fst (get_radio_info ftx) = Ok info
            /\ clar_direction info = String sgn ""
            /\ clar_offset info = 9995
            /\ clar_signed info = -9995.
Proof.
  intros ftx0 ftx.
  apply (clarifier_offset_round_trip (-9995) true false 0 ftx0 "?" ftx
           "IF00001014250000" "100000000" 14250000).
  - simpl. tauto.
  - reflexivity.
  - reflexivity.
  - reflexivity.
  - simpl. lia.
  - reflexivity.
Defined.

(** ** Frames *)

Lemma mode_value_wire mode : str_all wire_char (OperatingMode_value mode) = true.
Proof. destruct mode; reflexivity. Qed.

Lemma agc_value_wire mode : str_all wire_char (AGCMode_value mode) = true.
Proof. destruct mode; reflexivity. Qed.

(** C8: for a side of 0 or 1 and any of the 17 operating modes,
    [set_mode] sends the body [MD], the side digit and the character of
    the mode, and what is written is that body followed by one [;], the
    only [;] of the frame. *)
Theorem set_mode_frame (mode : OperatingMode) (side : Z) ftx :
  side = 0 \/ side = 1 ->
  let body := "MD" ++ (if side =? 0 then "0" else "1")
                ++ OperatingMode_value mode in
  sends (set_mode mode side) ftx [(list_byte_of_string body ++ [semicolon])%list]
  /\ ~ In semicolon (list_byte_of_string body)
  /\ String.length (OperatingMode_value mode) = 1%nat
  /\ In mode all_modes.
Proof.
  intros Hs body.
  assert (Hb : "MD" ++ str_int side ++ OperatingMode_value mode = body)
    by (destruct Hs; subst side; reflexivity).
  assert (Hw : str_all wire_char body = true)
    by (rewrite <- Hb; wire; apply mode_value_wire).
  split; [|split; [|split]].
  - unfold set_mode. rewrite Hb. apply sends_setter, wire_char_ascii, Hw.
  - apply not_in_semicolon_bytes, wire_char_not_semicolon, Hw.
  - destruct mode; reflexivity.
  - destruct mode; simpl; tauto.
Qed.

Lemma set_mode_frame_witness :
  sends (set_mode CW_U 1) (mkFTX (mkSerial [] []))
    [(list_byte_of_string "MD13" ++ [semicolon])%list]
  /\ ~ In semicolon (list_byte_of_string "MD13")
  /\ String.length (OperatingMode_value CW_U) = 1%nat
  /\ In CW_U all_modes.
Proof.
  apply (set_mode_frame CW_U 1 (mkFTX (mkSerial [] []))). right. reflexivity.
Defined.

Ltac frames :=
  cbv zeta;
  repeat first
    [ apply writes_frames_ret
    | apply writes_frames_lift
    | apply writes_frames_raise
    | apply writes_frames_send
    | apply writes_frames_bind; [|intros ?]
    | match goal with
      | |- writes_frames (match ?b with true => _ | false => _ end) =>
          destruct b
      end ];
  wire; auto using mode_value_wire, agc_value_wire.

(** C9: every frame that a catalog operation called within its
    documented preconditions writes is a body holding no [;] followed by
    one [;]: the frame holds exactly one [;], in last position. *)
Theorem catalog_frames_ok (pyfloat : Type) (float : string -> result pyfloat)
    (op : Operation) :
  documented op = true ->
  forall ftx, exists frames,
    sends (run float op) ftx frames
    /\ Forall (fun frame =>
                 exists body, frame = (body ++ [semicolon])%list
                              /\ ~ In semicolon body) frames.
Proof.
  intros _. change (writes_frames (run float op)).
  destruct op; unfold run, void;
    unfold set_frequency_main, get_frequency_main, set_frequency_sub,
      get_frequency_sub, set_mode, get_mode, set_ptt, get_ptt_status,
      set_rf_power, get_rf_power, set_agc, get_agc, set_af_gain, get_af_gain,
      set_squelch, get_squelch, get_s_meter, get_meter_reading,
      toggle_vfo_memory, set_memory_channel, memory_to_vfo, memory_to_vfo_sub,
      set_split, get_split, set_clarifier, band_up, band_down, select_band,
      set_scan, set_cw_keyer, set_cw_speed, get_cw_speed, set_cw_pitch,
      set_breakin, set_if_shift, set_width, set_narrow, set_noise_blanker,
      set_dnr, set_dnf, get_radio_info, get_id, get_firmware_version,
      enable_auto_information, lock_controls, swap_vfo;
    frames.
Qed.

Lemma catalog_frames_ok_witness :
  exists frames,
    sends (run (fun _ : string => @Raise unit ValueError)
             (Call_set_clarifier true false (-100) 1))
      (mkFTX (mkSerial [] [])) frames
    /\ Forall (fun frame =>
                 exists body, frame = (body ++ [semicolon])%list
                              /\ ~ In semicolon body) frames.
Proof.
  apply (catalog_frames_ok unit (fun _ => Raise ValueError)
           (Call_set_clarifier true false (-100) 1)).
  reflexivity.
Defined.

(* ================================================================== *)
(** * Further properties of the engine                                 *)
(* ================================================================== *)

Lemma send_command_terminated command reply ftx rest :
  str_all is_ascii command = true ->
  str_all wire_char reply = true ->
  pending (ser ftx)
  = (map Some (list_byte_of_string (reply ++ ";")) ++ rest)%list ->
  _send_command command ftx
  = (Ok reply,
     mkFTX (mkSerial (written (ser ftx) ++ [frame_of command])%list rest)).
Proof.
  intros Hc Hr Hp. rewrite send_command_ascii by exact Hc.
  rewrite Hp, list_byte_of_string_app, map_app, <- app_assoc.
  change (map Some (list_byte_of_string ";") ++ rest)%list
    with (Some semicolon :: rest).
  destruct (reply_bytes_terminated (list_byte_of_string reply) rest) as [-> ->].
  - apply not_in_semicolon_bytes, wire_char_not_semicolon, Hr.
  - now rewrite decode_encode by apply wire_char_ascii, Hr.
Qed.

Lemma reply_timed_out bs rest :
  ~ In semicolon bs ->
  reply_rest (map Some bs ++ None :: rest)%list = rest.
Proof.
  induction bs as [|b bs IH]; simpl; intros H; [reflexivity|].
  destruct (Byte.eqb b semicolon) eqn:E.
  - apply byte_eqb_eq in E. tauto.
  - apply IH. tauto.
Qed.

(** X1: replies are consumed one frame at a time and in order: when the
    replies [r1;] and [r2;] are pending, two transactions in a row
    return [r1] and then [r2], write their two frames in the order of
    the calls, and leave what follows pending. *)
Theorem transactions_in_sequence first second r1 r2 ftx rest :
  str_all is_ascii first = true ->
  str_all is_ascii second = true ->
  str_all wire_char r1 = true ->
  str_all wire_char r2 = true ->
  pending (ser ftx)
  = (map Some (list_byte_of_string (r1 ++ ";"))
       ++ map Some (list_byte_of_string (r2 ++ ";")) ++ rest)%list ->
  two_commands first second ftx
  = (Ok (r1, r2),
     mkFTX (mkSerial (written (ser ftx) ++ [frame_of first; frame_of second])%list
                     rest)).
Proof.
  intros H1 H2 Hr1 Hr2 Hp. unfold two_commands, bind.
  rewrite (send_command_terminated first r1 ftx _ H1 Hr1 Hp).
  rewrite (send_command_terminated second r2 (mkFTX (mkSerial _ _)) rest
             H2 Hr2 eq_refl).
  cbn [ser written ret]. now rewrite <- app_assoc.
Qed.

Lemma transactions_in_sequence_witness :
  two_commands "FA" "MD0"
    (mkFTX (mkSerial [] (map Some (list_byte_of_string "FA014250000;MD02;TX0;"))))
  = (Ok ("FA014250000", "MD02"),
     mkFTX (mkSerial ([] ++ [frame_of "FA"; frame_of "MD0"])%list
              (map Some (list_byte_of_string "TX0;")))).
Proof.
  apply (transactions_in_sequence "FA" "MD0" "FA014250000" "MD02"
           (mkFTX (mkSerial []
                     (map Some (list_byte_of_string "FA014250000;MD02;TX0;"))))
           (map Some (list_byte_of_string "TX0;"))); reflexivity.
Defined.

(** X2: a read that times out in the middle of a reply cuts the reply in
    two: the transaction returns the part that had arrived, and the
    part that arrives later is returned by the next transaction as if it
    were that command's reply. *)
Theorem timeout_splits_reply first second head tail ftx rest :
  str_all is_ascii first = true ->
  str_all is_ascii second = true ->
  str_all wire_char head = true ->
  str_all wire_char tail = true ->
  pending (ser ftx)
  = (map Some (list_byte_of_string head)
       ++ None :: map Some (list_byte_of_string (tail ++ ";")) ++ rest)%list ->
  two_commands first second ftx
  = (Ok (head, tail),
     mkFTX (mkSerial (written (ser ftx) ++ [frame_of first; frame_of second])%list
                     rest)).
Proof.
  intros H1 H2 Hh Ht Hp. unfold two_commands, bind.
  assert (Hn : ~ In semicolon (list_byte_of_string head))
    by apply not_in_semicolon_bytes, wire_char_not_semicolon, Hh.
  rewrite (send_command_ascii first) by exact H1. rewrite Hp.
  destruct (reply_bytes_timeout (list_byte_of_string head)
              (map Some (list_byte_of_string (tail ++ ";")) ++ rest)%list Hn)
    as [-> _].
  rewrite reply_timed_out by exact Hn.
  rewrite decode_encode by apply wire_char_ascii, Hh.
  rewrite (send_command_terminated second tail (mkFTX (mkSerial _ _)) rest
             H2 Ht eq_refl).
  cbn [ser written ret]. now rewrite <- app_assoc.
Qed.

Lemma timeout_splits_reply_witness :
  two_commands "FA" "MD0"
    (mkFTX (mkSerial []
              (map Some (list_byte_of_string "FA0142")
                 ++ None :: map Some (list_byte_of_string "50000;MD02;"))%list))
  = (Ok ("FA0142", "50000"),
     mkFTX (mkSerial ([] ++ [frame_of "FA"; frame_of "MD0"])%list
              (map Some (list_byte_of_string "MD02;")))).
Proof.
  apply (timeout_splits_reply "FA" "MD0" "FA0142" "50000"
           (mkFTX (mkSerial []
              (map Some (list_byte_of_string "FA0142")
                 ++ None :: map Some (list_byte_of_string "50000;MD02;"))%list))
           (map Some (list_byte_of_string "MD02;"))); reflexivity.
Defined.

Lemma str_all_false_app p (a b : string) :
  str_all p a = false -> str_all p (a ++ b) = false.
Proof. intros H. now rewrite str_all_app, H. Qed.

(** X3: a command holding a character above 127 raises
    [UnicodeEncodeError] before the port is touched: nothing is written
    and no pending byte is read. *)
Theorem send_command_not_ascii command ftx :
  str_all is_ascii command = false ->
  _send_command command ftx = (Raise UnicodeEncodeError, ftx).
Proof.
  intros H. rewrite send_command_unfold. unfold encode_ascii.
  now rewrite str_all_false_app.
Qed.

Lemma send_command_not_ascii_witness :
  let ftx := mkFTX (mkSerial [] (map Some (list_byte_of_string "FA014250000;"))) in
  _send_command (String (ascii_of_N 233) "FA") ftx
  = (Raise UnicodeEncodeError, ftx).
Proof.
  intros ftx. apply (send_command_not_ascii (String (ascii_of_N 233) "FA") ftx).
  reflexivity.
Defined.

(* ================================================================== *)
(** * Further properties of the catalog                                *)
(* ================================================================== *)















(** X6: [set_clarifier] returns nothing but reads two replies: when its
    first transaction returns, the pending input is consumed up to the
    second terminator or timeout. *)
Theorem set_clarifier_reads_two_replies (rx_on tx_on : bool)
    (offset_hz side : Z) ftx reply :
  next_reply ftx = Ok reply ->
  pending (ser (snd (set_clarifier rx_on tx_on offset_hz side ftx)))
  = reply_rest (reply_rest (pending (ser ftx))).
Proof.
  intros Hr. unfold set_clarifier. cbv zeta. unfold bind.
  rewrite send_command_ascii by apply wire_char_ascii, clarifier_flags_wire.
  unfold next_reply in Hr. rewrite Hr.
  rewrite send_command_ascii by apply wire_char_ascii, clarifier_offset_wire.
  cbn [ser pending].
  match goal with
  | |- context [decode_ascii ?x] => destruct (decode_ascii x)
  end; reflexivity.
Qed.

Lemma set_clarifier_reads_two_replies_witness :
  pending (ser (snd (set_clarifier true false 100 0
                       (mkFTX (mkSerial []
                          (map Some (list_byte_of_string "?;?;FA0;")))))))
  = reply_rest (reply_rest (map Some (list_byte_of_string "?;?;FA0;"))).
Proof.
  apply (set_clarifier_reads_two_replies true false 100 0
           (mkFTX (mkSerial [] (map Some (list_byte_of_string "?;?;FA0;"))))
           "?").
  reflexivity.
Defined.

(** ** Numbers on the wire *)

Lemma rstrip_cons_digits c s :
  str_all is_digit s = true -> s <> "" -> rstrip (String c s) = String c s.
Proof.
  intros H Hn. cbn [rstrip]. rewrite (rstrip_digits _ H).
  destruct s; [congruence|reflexivity].
Qed.

Lemma int_opt_minus s :
  str_all is_digit s = true -> s <> "" ->
  int_opt (String "-" s) = option_map Z.opp (int_body 0 false s).
Proof.
  intros H Hn. unfold int_opt.
  change (lstrip (String "-" s)) with (String "-" s).
  now rewrite rstrip_cons_digits.
Qed.

Lemma int_opt_plus s :
  str_all is_digit s = true -> s <> "" ->
  int_opt (String "+" s) = int_body 0 false s.
Proof.
  intros H Hn. unfold int_opt.
  change (lstrip (String "+" s)) with (String "+" s).
  now rewrite rstrip_cons_digits.
Qed.

Lemma padded_digits k n :
  0 <= n ->
  str_all is_digit (zeros k ++ digits_of n) = true
  /\ zeros k ++ digits_of n <> ""
  /\ int_body 0 false (zeros k ++ digits_of n) = Some n.
Proof.
  intros Hn. split; [|split].
  - now rewrite str_all_app, zeros_all_digits, digits_of_all_digits.
  - pose proof (digits_of_nonempty n).
    destruct k; simpl; [assumption|discriminate].
  - rewrite int_body_zeros, int_body_first_digit, digits_of_value; auto.
    + now apply digits_of_all_digits.
    + apply digits_of_nonempty.
Qed.


Lemma send_then_decode {A} command (k : string -> M A) ftx reply :
  str_all is_ascii command = true ->
  next_reply ftx = Ok reply ->
  fst (bind (_send_command command) k ftx)
  = fst (k reply (snd (_send_command command ftx))).
Proof.
  intros Hc Hr. apply bind_fst. now rewrite send_command_next.
Qed.



Lemma dec_digits_length_lower fuel : forall n k,
  0 <= n < 2 ^ Z.of_nat (S fuel) ->
  10 ^ Z.of_nat k <= n ->
  (k < String.length (dec_digits (S fuel) n))%nat.
Proof.
  induction fuel as [|f IH]; intros n k Hn Hk.
  - change (2 ^ Z.of_nat 1) with 2 in Hn.
    destruct k as [|k]; [simpl; destruct (n <? 10); simpl; lia|].
    exfalso. rewrite Nat2Z.inj_succ, Z.pow_succ_r in Hk by lia.
    assert (0 < 10 ^ Z.of_nat k) by (apply Z.pow_pos_nonneg; lia). lia.
  - change (dec_digits (S (S f)) n)
      with (if n <? 10 then String (digit_char n) ""
            else dec_digits (S f) (n / 10) ++ String (digit_char (n mod 10)) "").
    destruct k as [|k].
    + destruct (n <? 10); [simpl; lia|].
      rewrite str_length_app. cbn [String.length]. lia.
    + rewrite Nat2Z.inj_succ, Z.pow_succ_r in Hk by lia.
      assert (Hp : 0 < 10 ^ Z.of_nat k) by (apply Z.pow_pos_nonneg; lia).
      destruct (n <? 10) eqn:E.
      * apply Z.ltb_lt in E. lia.
      * rewrite str_length_app. cbn [String.length].
        assert (Hd : 0 <= n / 10 < 2 ^ Z.of_nat (S f)).
        { split; [apply Z.div_pos; lia|].
          apply Z.div_lt_upper_bound; [lia|].
          replace (Z.of_nat (S (S f))) with (Z.succ (Z.of_nat (S f))) in Hn
            by lia.
          rewrite Z.pow_succ_r in Hn by lia. lia. }
        assert (Hq : 10 ^ Z.of_nat k <= n / 10)
          by (apply Z.div_le_lower_bound; lia).
        specialize (IH _ _ Hd Hq). lia.
Qed.

Lemma digits_of_length_lower n k :
  10 ^ Z.of_nat k <= n -> (k < String.length (digits_of n))%nat.
Proof.
  intros Hk.
  assert (Hp : 0 < 10 ^ Z.of_nat k) by (apply Z.pow_pos_nonneg; lia).
  apply dec_digits_length_lower; [|exact Hk]. split; [lia|].
  rewrite Nat2Z.inj_succ, Z2Nat.id by apply Z.log2_nonneg.
  apply Z.log2_spec. lia.
Qed.

(** The width of a formatted magnitude: exactly [S k] characters when
    the number fits, more when it does not. *)
Lemma format_0d_width k n :
  0 <= n ->
  (String.length (format_0d (S k) n) = S k <-> n < 10 ^ Z.of_nat (S k)).
Proof.
  intros Hn. rewrite format_0d_nonneg by exact Hn.
  rewrite str_length_app, zeros_length. split.
  - intros H. destruct (Z.lt_ge_cases n (10 ^ Z.of_nat (S k))) as [|Hge];
      [assumption|].
    pose proof (digits_of_length_lower n (S k) Hge). lia.
  - intros H. pose proof (digits_of_length n k (conj Hn H)). lia.
Qed.

Lemma int_signed_field (offset_hz : Z) :
  int ((if offset_hz >=? 0 then "+" else "-") ++ format_0d 4 (Z.abs offset_hz))
  = Ok offset_hz.
Proof.
  pose proof (Z.abs_nonneg offset_hz) as Ha.
  rewrite format_0d_nonneg by exact Ha.
  destruct (padded_digits (4 - String.length (digits_of (Z.abs offset_hz)))
              (Z.abs offset_hz) Ha) as [H1 [H2 H3]].
  unfold int. destruct (offset_hz >=? 0) eqn:E; cbn [append].
  - rewrite (int_opt_plus _ H1 H2), H3. f_equal.
    apply Z.geb_le in E. lia.
  - rewrite (int_opt_minus _ H1 H2), H3. simpl. f_equal.
    rewrite Z.geb_leb in E. apply Z.leb_gt in E. lia.
Qed.

(** X8: the signed field of [set_if_shift] and of [set_clarifier]: the
    sign and the zero-padded magnitude read back, as one signed number,
    to the offset that was given; and the field is the five characters
    the layout has room for exactly when the offset lies within
    -9999..9999: a larger offset is not cut but makes the command one
    or more characters longer. *)
Theorem signed_field_width (rx_on tx_on : bool) (offset_hz side : Z) ftx reply :
  next_reply ftx = Ok reply ->
  exists field,
    sends (set_if_shift offset_hz side) ftx
      [frame_of ("IS" ++ str_int side ++ "0" ++ field)]
    /\ sends (set_clarifier rx_on tx_on offset_hz side) ftx
         [frame_of ("CF" ++ str_int side ++ "00" ++ (if rx_on then "1" else "0")
                      ++ (if tx_on then "1" else "0") ++ "000");
          frame_of ("CF" ++ str_int side ++ "01" ++ field)]
    /\ int field = Ok offset_hz
    /\ (String.length field = 5%nat <-> -9999 <= offset_hz <= 9999).
Proof.
  intros Hr.
  exists ((if offset_hz >=? 0 then "+" else "-") ++ format_0d 4 (Z.abs offset_hz)).
  split; [|split; [|split]].
  - unfold set_if_shift. apply sends_setter, wire_char_ascii. wire.
  - pose proof (set_clarifier_sends rx_on tx_on offset_hz side ftx) as H.
    cbv zeta in H. now rewrite Hr in H.
  - apply int_signed_field.
  - rewrite str_length_app.
    pose proof (format_0d_width 3 (Z.abs offset_hz) (Z.abs_nonneg _)) as W.
    change (10 ^ Z.of_nat 4) with 10000 in W.
    assert (String.length (if offset_hz >=? 0 then "+" else "-") = 1%nat)
      by (destruct (offset_hz >=? 0); reflexivity).
    split; intros; [assert (Z.abs offset_hz < 10000) by (apply W; lia)
                   |assert (String.length (format_0d 4 (Z.abs offset_hz)) = 4%nat)
                      by (apply W; lia)]; lia.
Qed.

Lemma signed_field_width_witness :
  exists field,
    sends (set_if_shift (-20) 1) (mkFTX (mkSerial [] []))
      [frame_of ("IS" ++ str_int 1 ++ "0" ++ field)]
    /\ sends (set_clarifier true false (-20) 1) (mkFTX (mkSerial [] []))
         [frame_of ("CF" ++ str_int 1 ++ "00" ++ "1" ++ "0" ++ "000");
          frame_of ("CF" ++ str_int 1 ++ "01" ++ field)]
    /\ int field = Ok (-20)
    /\ (String.length field = 5%nat <-> -9999 <= -20 <= 9999).
Proof.
  apply (signed_field_width true false (-20) 1 (mkFTX (mkSerial [] [])) "").
  reflexivity.
Defined.

(** ** Setters and getters in pairs *)

Lemma str_int_digit x : 0 <= x <= 9 -> str_int x = String (digit_char x) "".
Proof.
  intros H. assert (H' : 0 <= x < 10) by lia.
  destruct (digit_cases x H') as [E|[E|[E|[E|[E|[E|[E|[E|[E|E]]]]]]]]];
    subst x; reflexivity.
Qed.

Lemma str_take_app_exact s : forall n t,
  String.length s = n -> str_take n (s ++ t) = s.
Proof.
  induction s as [|c s IH]; intros n t H; simpl in H; subst n.
  - destruct t; reflexivity.
  - simpl. f_equal. now apply IH.
Qed.

Lemma format_0d_3 n :
  0 <= n <= 999 ->
  String.length (format_0d 3 n) = 3%nat /\ int (format_0d 3 n) = Ok n.
Proof.
  intros H. split; [|apply int_format_0d; lia].
  apply format_0d_length. change (10 ^ Z.of_nat 3) with 1000. lia.
Qed.

(** X9: the three-digit levels round-trip: within 0..999 and for a
    one-digit side, the value that [set_af_gain], [set_squelch] or
    [set_cw_speed] sends is what [get_af_gain], [get_squelch] or
    [get_cw_speed] decodes from a reply that echoes the command. *)
Theorem three_digit_round_trips level side ftx ftx_gain ftx_squelch ftx_speed :
  0 <= level <= 999 ->
  0 <= side <= 9 ->
  next_reply ftx_gain = Ok ("AG" ++ str_int side ++ format_0d 3 level) ->
  next_reply ftx_squelch = Ok ("SQ" ++ str_int side ++ format_0d 3 level) ->
  next_reply ftx_speed = Ok ("KS" ++ format_0d 3 level) ->
  sends (set_af_gain level side) ftx
    [frame_of ("AG" ++ str_int side ++ format_0d 3 level)]
  /\ fst (get_af_gain side ftx_gain) = Ok level
  /\ sends (set_squelch level side) ftx
       [frame_of ("SQ" ++ str_int side ++ format_0d 3 level)]
  /\ fst (get_squelch side ftx_squelch) = Ok level
  /\ sends (set_cw_speed level) ftx [frame_of ("KS" ++ format_0d 3 level)]
  /\ fst (get_cw_speed ftx_speed) = Ok level.
Proof.
  intros Hl Hs Hg Hq Hk.
  destruct (format_0d_3 level Hl) as [Hlen Hint].
  assert (Hslice : forall a b c,
             slice 3 6 (String a (String b (String c (format_0d 3 level))))
             = format_0d 3 level).
  { intros. unfold slice. cbn [slice_from Nat.sub].
    rewrite <- (str_take_app_exact (format_0d 3 level) 3 "" Hlen) at 2.
    f_equal. clear. induction (format_0d 3 level); simpl; congruence. }
  assert (Hslice2 : forall a b,
             slice 2 5 (String a (String b (format_0d 3 level)))
             = format_0d 3 level).
  { intros. unfold slice. cbn [slice_from Nat.sub].
    rewrite <- (str_take_app_exact (format_0d 3 level) 3 "" Hlen) at 2.
    f_equal. clear. induction (format_0d 3 level); simpl; congruence. }
  unfold set_af_gain, set_squelch, set_cw_speed, get_af_gain, get_squelch,
    get_cw_speed.
  repeat split.
  - apply sends_setter, wire_char_ascii. wire.
  - rewrite (send_then_decode _ _ _ _ (side_command_ascii "AG" side eq_refl) Hg).
    unfold lift. cbn [fst]. rewrite str_int_digit by exact Hs.
    cbn [append]. now rewrite Hslice.
  - apply sends_setter, wire_char_ascii. wire.
  - rewrite (send_then_decode _ _ _ _ (side_command_ascii "SQ" side eq_refl) Hq).
    unfold lift. cbn [fst]. rewrite str_int_digit by exact Hs.
    cbn [append]. now rewrite Hslice.
  - apply sends_setter, wire_char_ascii. wire.
  - rewrite (send_then_decode "KS" _ _ _ eq_refl Hk).
    unfold lift. cbn [fst append]. now rewrite Hslice2.
Qed.

Lemma three_digit_round_trips_witness :
  let port s := mkFTX (mkSerial [] (map Some (list_byte_of_string s))) in
  sends (set_af_gain 128 1) (port "") [frame_of "AG1128"]
  /\ fst (get_af_gain 1 (port "AG1128;")) = Ok 128
  /\ sends (set_squelch 128 1) (port "") [frame_of "SQ1128"]
  /\ fst (get_squelch 1 (port "SQ1128;")) = Ok 128
  /\ sends (set_cw_speed 128) (port "") [frame_of "KS128"]
  /\ fst (get_cw_speed (port "KS128;")) = Ok 128.
Proof.
  intros port.
  apply (three_digit_round_trips 128 1 (port "") (port "AG1128;")
           (port "SQ1128;") (port "KS128;")); try reflexivity; lia.
Defined.

Lemma mode_value_injective m m' :
  OperatingMode_value m' = OperatingMode_value m -> m' = m.
Proof. destruct m, m'; intros H; try reflexivity; discriminate H. Qed.

Lemma agc_value_injective m m' : AGCMode_value m' = AGCMode_value m -> m' = m.
Proof. destruct m, m'; intros H; try reflexivity; discriminate H. Qed.

(** X10: modes round-trip and are told apart by their character: for a
    one-digit side, [get_mode] returns from a reply echoing the command
    of [set_mode] the one character of that mode, which no other mode
    has; the same holds for [set_agc] and [get_agc]. *)
Theorem mode_round_trip (mode : OperatingMode) (agc : AGCMode) side
    ftx ftx_mode ftx_agc :
  0 <= side <= 9 ->
  next_reply ftx_mode = Ok ("MD" ++ str_int side ++ OperatingMode_value mode) ->
  next_reply ftx_agc = Ok ("GT" ++ str_int side ++ AGCMode_value agc) ->
  sends (set_mode mode side) ftx
    [frame_of ("MD" ++ str_int side ++ OperatingMode_value mode)]
  /\ fst (get_mode side ftx_mode) = Ok (OperatingMode_value mode)
  /\ (forall m, OperatingMode_value m = OperatingMode_value mode -> m = mode)
  /\ sends (set_agc agc side) ftx
       [frame_of ("GT" ++ str_int side ++ AGCMode_value agc)]
  /\ fst (get_agc side ftx_agc) = Ok (AGCMode_value agc)
  /\ (forall m, AGCMode_value m = AGCMode_value agc -> m = agc).
Proof.
  intros Hs Hm Ha. unfold set_mode, set_agc, get_mode, get_agc.
  repeat split.
  - apply sends_setter, wire_char_ascii. wire. apply mode_value_wire.
  - rewrite (send_then_decode _ _ _ _ (side_command_ascii "MD" side eq_refl) Hm).
    rewrite str_int_digit by exact Hs. reflexivity.
  - intros m. apply mode_value_injective.
  - apply sends_setter, wire_char_ascii. wire. apply agc_value_wire.
  - rewrite (send_then_decode _ _ _ _ (side_command_ascii "GT" side eq_refl) Ha).
    rewrite str_int_digit by exact Hs. reflexivity.
  - intros m. apply agc_value_injective.
Qed.

Lemma mode_round_trip_witness :
  let port s := mkFTX (mkSerial [] (map Some (list_byte_of_string s))) in
  sends (set_mode C4FM_VW 1) (port "") [frame_of "MD1I"]
  /\ fst (get_mode 1 (port "MD1I;")) = Ok "I"
  /\ (forall m, OperatingMode_value m = "I" -> m = C4FM_VW)
  /\ sends (set_agc AGC_SLOW 1) (port "") [frame_of "GT13"]
  /\ fst (get_agc 1 (port "GT13;")) = Ok "3"
  /\ (forall m, AGCMode_value m = "3" -> m = AGC_SLOW).
Proof.
  intros port.
  apply (mode_round_trip C4FM_VW AGC_SLOW 1 (port "") (port "MD1I;")
           (port "GT13;")); try reflexivity; lia.
Defined.

(** X11: the split flag round-trips, the PTT flag does not: from a reply
    echoing the command of [set_split], [get_split] returns the state
    that was set; from a reply echoing the command of [set_ptt],
    [get_ptt_status] returns [False] for both states, because it tests
    for the status character [2], which [set_ptt] never sends. *)
Theorem split_round_trip_ptt_not (state : bool) ftx ftx_split ftx_ptt :
  next_reply ftx_split = Ok (if state then "ST1" else "ST0") ->
  next_reply ftx_ptt = Ok (if state then "TX1" else "TX0") ->
  sends (set_split state) ftx [frame_of (if state then "ST1" else "ST0")]
  /\ fst (get_split ftx_split) = Ok state
  /\ sends (set_ptt state) ftx [frame_of (if state then "TX1" else "TX0")]
  /\ fst (get_ptt_status ftx_ptt) = Ok false.
Proof.
  intros Hs Hp. unfold set_split, set_ptt, get_split, get_ptt_status.
  cbv zeta. repeat split.
  - apply sends_setter. now destruct state.
  - rewrite (send_then_decode "ST" _ _ _ eq_refl Hs). now destruct state.
  - apply sends_setter. now destruct state.
  - rewrite (send_then_decode "TX" _ _ _ eq_refl Hp). now destruct state.
Qed.

Lemma split_round_trip_ptt_not_witness :
  let port s := mkFTX (mkSerial [] (map Some (list_byte_of_string s))) in
  sends (set_split true) (port "") [frame_of "ST1"]
  /\ fst (get_split (port "ST1;")) = Ok true
  /\ sends (set_ptt true) (port "") [frame_of "TX1"]
  /\ fst (get_ptt_status (port "TX1;")) = Ok false.
Proof.
  intros port.
  apply (split_round_trip_ptt_not true (port "") (port "ST1;") (port "TX1;"));
    reflexivity.
Defined.

(** X12: the CW pitch is sent as an index that rounds down: within
    300..1050 Hz [set_cw_pitch] sends [KP] and two digits that read
    [(pitch_hz - 300) // 10], a number from 0 to 75, and a pitch that is
    not a multiple of 10 Hz has the same effect as the multiple of 10
    below it. *)
Theorem cw_pitch_rounds_down pitch_hz ftx :
  300 <= pitch_hz <= 1050 ->
  exists index_,
    sends (set_cw_pitch pitch_hz) ftx [frame_of ("KP" ++ index_)]
    /\ String.length index_ = 2%nat
    /\ int index_ = Ok ((pitch_hz - 300) / 10)
    /\ 0 <= (pitch_hz - 300) / 10 <= 75
    /\ set_cw_pitch pitch_hz ftx = set_cw_pitch (pitch_hz - pitch_hz mod 10) ftx.
Proof.
  intros H.
  assert (Hi : 0 <= (pitch_hz - 300) / 10 <= 75).
  { split; [apply Z.div_pos; lia|].
    apply Z.div_le_upper_bound; lia. }
  exists (format_0d 2 ((pitch_hz - 300) / 10)).
  split; [|split; [|split; [|split]]].
  - unfold set_cw_pitch. apply sends_setter, wire_char_ascii. wire.
  - apply format_0d_length. change (10 ^ Z.of_nat 2) with 100. lia.
  - apply int_format_0d. lia.
  - exact Hi.
  - unfold set_cw_pitch. cbv zeta.
    replace ((pitch_hz - pitch_hz mod 10 - 300) / 10)
      with ((pitch_hz - 300) / 10); [reflexivity|].
    pose proof (Z.div_mod pitch_hz 10 ltac:(lia)) as E.
    pose proof (Z.mod_pos_bound pitch_hz 10 ltac:(lia)) as B.
    replace (pitch_hz - 300)
      with (pitch_hz mod 10 + (pitch_hz / 10 - 30) * 10) by lia.
    replace (pitch_hz - pitch_hz mod 10 - 300)
      with (0 + (pitch_hz / 10 - 30) * 10) by lia.
    rewrite !Z.div_add by lia.
    rewrite (Z.div_small (pitch_hz mod 10)) by lia. reflexivity.
Qed.

Lemma cw_pitch_rounds_down_witness :
  exists index_,
    sends (set_cw_pitch 707) (mkFTX (mkSerial [] [])) [frame_of ("KP" ++ index_)]
    /\ String.length index_ = 2%nat
    /\ int index_ = Ok ((707 - 300) / 10)
    /\ 0 <= (707 - 300) / 10 <= 75
    /\ set_cw_pitch 707 (mkFTX (mkSerial [] []))
       = set_cw_pitch (707 - 707 mod 10) (mkFTX (mkSerial [] [])).
Proof.
  apply (cw_pitch_rounds_down 707 (mkFTX (mkSerial [] []))). lia.
Defined.



(** ** Fixed layouts *)

Ltac explode s H :=
  repeat (destruct s as [|? s]; cbn [String.length] in H; [discriminate H|]);
  destruct s; cbn [String.length] in H; [clear H|discriminate H].

(** X14: the offsets of [get_radio_info] agree with the widths of the
    fields: from a reply made of [IF], 5 characters of memory channel,
    a frequency on 9 digits, the direction character, an offset on 4
    digits, the two clarifier flags, the mode, the VFO/memory flag, the
    tone mode, two further characters and the repeater shift,
    the dictionary holds exactly these values. *)
Theorem radio_info_layout ftx (mem : string) (f : Z) (dir : ascii) (off : Z)
    (rx tx md vfo tone : ascii) (filler : string) (shift : ascii)
    (rest : string) :
  String.length mem = 5%nat ->
  0 <= f < 10 ^ 9 ->
  0 <= off < 10 ^ 4 ->
  String.length filler = 2%nat ->
  next_reply ftx
  = Ok ("IF" ++ mem ++ format_0d 9 f ++ String dir (format_0d 4 off)
          ++ String rx (String tx (String md (String vfo (String tone
               (filler ++ String shift rest)))))) ->
  fst (get_radio_info ftx)
  = Ok (mkRadioInfo mem f (String dir "") off
          (String.eqb (String rx "") "1") (String.eqb (String tx "") "1")
          (String md "") (String vfo "") (String tone "") (String shift "")).
Proof.
  intros Hmem Hf Hoff Hfil Hr.
  assert (Hf9 : String.length (format_0d 9 f) = 9%nat)
    by (apply (format_0d_length 8); exact Hf).
  assert (Ho4 : String.length (format_0d 4 off) = 4%nat)
    by (apply (format_0d_length 3); exact Hoff).
  assert (Hfi : int (format_0d 9 f) = Ok f) by (apply int_format_0d; lia).
  assert (Hoi : int (format_0d 4 off) = Ok off) by (apply int_format_0d; lia).
  unfold get_radio_info.
  rewrite (send_then_decode "IF" _ _ _ eq_refl Hr).
  remember (format_0d 9 f) as F eqn:EF. clear EF.
  remember (format_0d 4 off) as O eqn:EO. clear EO.
  explode mem Hmem. explode F Hf9. explode O Ho4. explode filler Hfil.
  unfold bind, lift, ret.
  cbn [append slice slice_from str_take Nat.sub index String.get].
  rewrite Hfi. cbn. rewrite Hoi. reflexivity.
Qed.

Lemma radio_info_layout_witness :
  fst (get_radio_info
         (mkFTX (mkSerial []
                   (map Some (list_byte_of_string
                                "IF00012014250000+010010200001;")))))
  = Ok (mkRadioInfo "00012" 14250000 "+" 100 true false "2" "0" "0" "1").
Proof.
  apply (radio_info_layout
           (mkFTX (mkSerial []
                     (map Some (list_byte_of_string
                                  "IF00012014250000+010010200001;"))))
           "00012" 14250000 "+" 100 "1" "0" "2" "0" "0" "00" "1" "");
    try reflexivity; split; try lia; reflexivity.
Defined.


Lemma slice_from_cons n c s : slice_from (S n) (String c s) = slice_from n s.
Proof. reflexivity. Qed.

Lemma slice_from_0 s : slice_from 0 s = s.
Proof. destruct s; reflexivity. Qed.

Lemma slice_from_app_exact s : forall n t,
  String.length s = n -> slice_from n (s ++ t) = t.
Proof.
  induction s as [|c s IH]; intros n t H; simpl in H; subst n.
  - destruct t; reflexivity.
  - simpl. now apply IH.
Qed.

(** X15: the meter getters read fixed fields and nothing after them:
    for a one-digit selector, from a reply made of the mnemonic, the
    selector and numbers of three digits, [get_meter_reading] returns
    the first two numbers as a pair and [get_s_meter] the first one,
    whatever characters follow. *)
Theorem meter_layout a b meter_type side (tail : string) ftx_rm ftx_sm :
  0 <= a <= 999 ->
  0 <= b <= 999 ->
  0 <= meter_type <= 9 ->
  0 <= side <= 9 ->
  next_reply ftx_rm
  = Ok ("RM" ++ str_int meter_type ++ format_0d 3 a ++ format_0d 3 b ++ tail) ->
  next_reply ftx_sm = Ok ("SM" ++ str_int side ++ format_0d 3 a ++ tail) ->
  fst (get_meter_reading meter_type ftx_rm) = Ok (a, b)
  /\ fst (get_s_meter side ftx_sm) = Ok a.
Proof.
  intros Ha Hb Ht Hs Hrm Hsm.
  destruct (format_0d_3 a Ha) as [La Ia].
  destruct (format_0d_3 b Hb) as [Lb Ib].
  unfold get_meter_reading, get_s_meter. split.
  - rewrite (send_then_decode _ _ _ _
               (side_command_ascii "RM" meter_type eq_refl) Hrm).
    rewrite str_int_digit by exact Ht.
    unfold bind, lift, ret, slice. cbn [append Nat.sub].
    rewrite !slice_from_cons, slice_from_0.
    rewrite (str_take_app_exact _ 3 _ La), Ia.
    rewrite (slice_from_app_exact _ 3 _ La).
    now rewrite (str_take_app_exact _ 3 _ Lb), Ib.
  - rewrite (send_then_decode _ _ _ _
               (side_command_ascii "SM" side eq_refl) Hsm).
    rewrite str_int_digit by exact Hs.
    unfold lift, slice. cbn [append Nat.sub fst].
    rewrite !slice_from_cons, slice_from_0.
    now rewrite (str_take_app_exact _ 3 _ La).
Qed.

Lemma meter_layout_witness :
  let port s := mkFTX (mkSerial [] (map Some (list_byte_of_string s))) in
  fst (get_meter_reading 6 (port "RM6015120000;")) = Ok (15, 120)
  /\ fst (get_s_meter 0 (port "SM0015000;")) = Ok 15.
Proof.
  intros port.
  apply (meter_layout 15 120 6 0 "000" (port "RM6015120000;")
           (port "SM0015000;")); try reflexivity; lia.
Defined.



